(** * mws.utils.parsers: response parsing of python-amazon-mws

    A shallow embedding of [src/mws/utils/parsers.py]: the [DotDict] node
    type, the XML-to-dict conversion [XML2Dict], the textual namespace
    stripper and the two response wrappers [DictWrapper] and [DataWrapper],
    followed by the properties of them that the specification states.

    Modelling conventions.
    - A Python [str] is a [string]: characters are the code points 0..255,
      the repertoire that decoding [bytes] as iso-8859-1 produces.  Python
      [bytes] are [list byte].
    - A Python [dict] keeps insertion order, and [DictWrapper.__init__]
      reads [keys()[0]], so dictionaries of the value tree are association
      lists with the update discipline of [dict].  The headers of a
      [DataWrapper] are only looked up by key: they are a [gmap].
    - Exceptions are values of [exn]; a call that may raise returns a
      [result].
    - The objects built by the parser form a tree without sharing, so
      in-place mutation of an object reached from a dictionary is the
      replacement of the corresponding subtree. *)

From Stdlib Require Import Strings.Ascii Strings.String NArith Strings.Byte.
From stdpp Require Import base option list strings gmap.

Set Warnings "-register-all".

Local Open Scope string_scope.
Local Open Scope list_scope.

(** ** Exceptions and results *)

Inductive result (E A : Type) : Type :=
| Ok (a : A)
| Err (e : E).
Arguments Ok {E A} a.
Arguments Err {E A} e.

Definition bind {E A B} (r : result E A) (k : A -> result E B) : result E B :=
  match r with
  | Ok a => k a
  | Err e => Err e
  end.

Notation "x <- r ;; k" := (bind r (fun x => k))
  (at level 100, r at next level, right associativity).

(** ** Python values

    [VStr], [VBytes], [VNone] and [VList] are the builtin types the module
    handles; [VDict] is a plain [dict] and [VDotDict] an instance of the
    class [DotDict]. *)

Inductive value : Type :=
| VNone
| VStr (s : string)
| VBytes (b : list byte)
| VList (l : list value)
| VDict (d : list (string * value))
| VDotDict (d : list (string * value)).

Abbreviation dict := (list (string * value)).

Inductive exn : Type :=
| KeyError (key : string)
| AttributeError (name : string)
| TypeError (msg : string)
| IndexError (msg : string)
| ParseError
| UnicodeDecodeError (encoding : string) (object : list byte)
| MWSError (msg : string) (response : value).

Abbreviation res := (result exn).

(** ** Builtin [dict] operations on association lists *)

(** [key in d] *)
Fixpoint dict_contains (key : string) (d : dict) : bool :=
  match d with
  | [] => false
  | (k, _) :: r => if String.eqb k key then true else dict_contains key r
  end.

(** [dict.__getitem__(d, key)]; [None] stands for the [KeyError]. *)
Fixpoint dict_getitem (d : dict) (key : string) : option value :=
  match d with
  | [] => None
  | (k, v) :: r => if String.eqb k key then Some v else dict_getitem r key
  end.

(** [d[key] = v]: an existing key keeps its position, a new key goes last. *)
Fixpoint dict_setitem (d : dict) (key : string) (v : value) : dict :=
  match d with
  | [] => [(key, v)]
  | (k, w) :: r =>
      if String.eqb k key then (k, v) :: r else (k, w) :: dict_setitem r key v
  end.

(** [d.pop(key)] for a key that is present (the value is dropped). *)
Fixpoint dict_pop (d : dict) (key : string) : dict :=
  match d with
  | [] => []
  | (k, w) :: r => if String.eqb k key then r else (k, w) :: dict_pop r key
  end.

(** [list(d.keys())] *)
Definition dict_keys (d : dict) : list string := map fst d.

Definition isinstance_list (v : value) : bool :=
  match v with VList _ => true | _ => false end.

(** ** class DotDict *)

Module DotDict.

(** [_value_or_node(self, node)].  The branch taken for a single-value
    node is the read of its key [value], which is [__getitem__] again: the
    inner loop is the [dict] lookup of that key, and its hit goes back
    through [_value_or_node] (see [_value_or_node_eq] below). *)
Fixpoint _value_or_node (node : value) : res value :=
  match node with
  | VDotDict d =>
      if dict_contains "value" d && Nat.eqb (length d) 1 then
        (fix lookup (l : dict) : res value :=
           match l with
           | [] => Err (KeyError "value")
           | (k, v) :: r =>
               if String.eqb k "value" then _value_or_node v else lookup r
           end) d
      else Ok node
  | _ => Ok node
  end.

(** [__getitem__(self, key)] *)
Definition __getitem__ (self : dict) (key : string) : res value :=
  match dict_getitem self key with
  | None => Err (KeyError key)
  | Some node => _value_or_node node
  end.

(** [__setitem__] is inherited from [dict]; [__setattr__] forwards to it. *)
Definition __setitem__ (self : dict) (key : string) (v : value) : dict :=
  dict_setitem self key v.

Definition __setattr__ (self : dict) (item : string) (v : value) : dict :=
  __setitem__ self item v.

(** [__getattr__]: only reached for names that are no real attribute. *)
Definition __getattr__ (self : dict) (item : string) : res value :=
  __getitem__ self item.

(** [get(self, key, default)] *)
Definition get (self : dict) (key : string) (default : value) : res value :=
  match __getitem__ self key with
  | Err (KeyError _) => Ok default
  | r => r
  end.

(** [__iter__(self)]: the items that iterating [self] yields.  [self] is
    an instance of [DotDict]; the second branch returns [self] itself, which
    [iter] rejects unless it is an iterator. *)
Definition __iter__ (self : dict) : res (list value) :=
  if negb (isinstance_list (VDotDict self)) then Ok [VDotDict self]
  else Err (TypeError "iter() returned non-iterator").

End DotDict.

(** Iteration ([for x in v]) over the two kinds of value that the parser
    stores for a child tag: a [list] yields its elements, a [DotDict] what
    its [__iter__] yields.  Other values are not iterated by the module
    ([None] here). *)
Definition py_iter (v : value) : option (res (list value)) :=
  match v with
  | VList l => Some (Ok l)
  | VDotDict d => Some (DotDict.__iter__ d)
  | _ => None
  end.

(** ** Text helpers *)

Definition quote : ascii := "034"%char.
Definition line_feed : ascii := "010"%char.

(** [bool(s)] for a [str] *)
Definition truthy (s : string) : bool :=
  match s with
  | EmptyString => false
  | String _ _ => true
  end.

(** [str.isspace] of one character, on the code points 0..255 *)
Definition isspace (c : ascii) : bool :=
  let n := N_of_ascii c in
  ((9 <=? n) && (n <=? 13) || (28 <=? n) && (n <=? 32)
   || (n =? 133) || (n =? 160))%N.

Fixpoint lstrip (s : string) : string :=
  match s with
  | EmptyString => EmptyString
  | String c r => if isspace c then lstrip r else s
  end.

Fixpoint rstrip (s : string) : string :=
  match s with
  | EmptyString => EmptyString
  | String c r =>
      match rstrip r with
      | EmptyString => if isspace c then EmptyString else String c EmptyString
      | r' => String c r'
      end
  end.

(** [s.strip()] *)
Definition strip (s : string) : string := rstrip (lstrip s).

(** [s] without the prefix [p], when it starts with it *)
Fixpoint strip_prefix (p s : string) : option string :=
  match p, s with
  | EmptyString, _ => Some s
  | String a p', String b s' =>
      if Ascii.eqb a b then strip_prefix p' s' else None
  | String _ _, EmptyString => None
  end.

(** ** remove_xml_namespace

    The pattern has three alternatives: [ xmlns(:ns2)?=Q[^Q]+Q], [(ns2:)]
    and [(xml:)], where Q stands for the double quote character.  A match
    attempt at the head of a text returns the text after the match. *)

(** What [[^Q]+] consumes greedily, and what is left. *)
Fixpoint span_not_quote (s : string) : string * string :=
  match s with
  | EmptyString => (EmptyString, EmptyString)
  | String c r =>
      if Ascii.eqb c quote then (EmptyString, s)
      else let '(body, rest) := span_not_quote r in (String c body, rest)
  end.

(** [=Q[^Q]+Q] *)
Definition match_eq_quoted (s : string) : option string :=
  match strip_prefix (String "=" (String quote EmptyString)) s with
  | Some r =>
      match span_not_quote r with
      | (String _ _, String _ after) => Some after
      | _ => None
      end
  | None => None
  end.

(** [ xmlns(:ns2)?=Q[^Q]+Q]: the optional group is tried first, then
    skipped. *)
Definition match_xmlns (s : string) : option string :=
  match strip_prefix " xmlns" s with
  | Some r =>
      match
        match strip_prefix ":ns2" r with
        | Some r2 => match_eq_quoted r2
        | None => None
        end
      with
      | Some after => Some after
      | None => match_eq_quoted r
      end
  | None => None
  end.

(** The three alternatives, in the order of the pattern. *)
Definition namespace_decl_match (s : string) : option string :=
  match match_xmlns s with
  | Some after => Some after
  | None =>
      match strip_prefix "ns2:" s with
      | Some after => Some after
      | None => strip_prefix "xml:" s
      end
  end.

(** [regex.sub] with the empty replacement: left to right, every match is dropped and the
    scan resumes behind it; [skip] counts the characters of the current
    match that are still to be dropped. *)
Fixpoint sub_empty (skip : nat) (s : string) : string :=
  match s with
  | EmptyString => EmptyString
  | String c r =>
      match skip with
      | S k => sub_empty k r
      | O =>
          match namespace_decl_match s with
          | Some after =>
              sub_empty (String.length s - String.length after - 1) r
          | None => String c (sub_empty 0 r)
          end
      end
  end.

Definition remove_xml_namespace (xml : string) : string := sub_empty 0 xml.

(** ** xml.etree.ElementTree elements

    The attributes of the library's [Element] that the parser reads.
    [attrib] lists the items of the attribute dictionary in its order. *)

Inductive Element : Type :=
  mkElement {
    tag : string;
    text : option string;
    attrib : list (string * string);
    children : list Element
  }.

(** ** class XML2Dict *)

Module XML2Dict.

(** The pattern of [_namespace_split] is an opening brace, a group [.*],
    a closing brace and a second group [.*], used with [search]; the dot
    matches every character but the line feed. *)

(** What [.*] can consume at most. *)
Fixpoint dot_star (s : string) : string :=
  match s with
  | EmptyString => EmptyString
  | String c r => if Ascii.eqb c line_feed then EmptyString else String c (dot_star r)
  end.

(** The pattern behind the opening brace, on the rest of the line: the
    first group is greedy, so the split is at the last closing brace. *)
Fixpoint split_last_brace (line : string) : option (string * string) :=
  match line with
  | EmptyString => None
  | String c r =>
      match split_last_brace r with
      | Some (g1, g2) => Some (String c g1, g2)
      | None => if Ascii.eqb c "}" then Some (EmptyString, r) else None
      end
  end.

(** [search]: the leftmost start position that matches; the result is
    [groups()]. *)
Fixpoint namespace_search (tag : string) : option (string * string) :=
  match tag with
  | EmptyString => None
  | String c r =>
      if Ascii.eqb c "{" then
        match split_last_brace (dot_star r) with
        | Some g => Some g
        | None => namespace_search r
        end
      else namespace_search r
  end.

(** [_namespace_split(self, tag, value)]; [value] is a [DotDict] at every
    call.  [value.namespace = ...] is [__setattr__]. *)
Definition _namespace_split (tag : string) (value : dict) : string * dict :=
  match namespace_search tag with
  | Some (namespace, tag') =>
      (tag', DotDict.__setattr__ value "namespace" (VStr namespace))
  | None => (tag, value)
  end.

(** [obj.append(x)] for the object [obj] that the read [node_tree[tag]]
    returns when [node] is the value stored under [tag]: the read walks
    down single-value nodes exactly as [DotDict._value_or_node] does and
    the object it ends at is changed in place, so the result is the stored
    value afterwards.  An object without [append] raises; for a [DotDict]
    the attribute lookup goes through [__getattr__]. *)
Fixpoint append_at_read (node x : value) : res value :=
  match node with
  | VDotDict d =>
      if dict_contains "value" d && Nat.eqb (length d) 1 then
        d' <- (fix walk (l : dict) : res dict :=
                 match l with
                 | [] => Err (KeyError "value")
                 | (k, v) :: r =>
                     if String.eqb k "value"
                     then (v' <- append_at_read v x ;; Ok ((k, v') :: r))
                     else (r' <- walk r ;; Ok ((k, v) :: r'))
                 end) d ;;
        Ok (VDotDict d')
      else
        (_ <- DotDict.__getattr__ d "append" ;;
         Err (TypeError "object is not callable"))
  | VList l => Ok (VList (l ++ [x]))
  | _ => Err (AttributeError "append")
  end.

(** [node_tree[tag].append(tree)] *)
Definition getitem_append (node_tree : dict) (tag : string) (tree : value)
  : res dict :=
  match dict_getitem node_tree tag with
  | None => Err (KeyError tag)
  | Some stored =>
      stored' <- append_at_read stored tree ;;
      Ok (dict_setitem node_tree tag stored')
  end.

(** The body of the attribute loop of [_parse_node]. *)
Definition store_attrib (node_tree : dict) (kv : string * string) : dict :=
  let '(key, val) := kv in
  let '(key, val) := _namespace_split key [("value", VStr val)] in
  DotDict.__setitem__ node_tree key (VDotDict val).

(** The body of the child loop of [_parse_node], after the recursive call
    and the namespace split. *)
Definition store_child (node_tree : dict) (tag : string) (tree : dict)
  : res dict :=
  if negb (dict_contains tag node_tree) then
    Ok (DotDict.__setitem__ node_tree tag (VDotDict tree))
  else
    old <- DotDict.__getitem__ node_tree tag ;;
    let node_tree :=
      if negb (isinstance_list old)
      then DotDict.__setitem__ (dict_pop node_tree tag) tag (VList [old])
      else node_tree in
    getitem_append node_tree tag (VDotDict tree).

Section ChildLoop.
Variable parse : Element -> res dict.

Fixpoint children_loop (cs : list Element) (node_tree : dict) : res dict :=
  match cs with
  | [] => Ok node_tree
  | child :: cs' =>
      tree <- parse child ;;
      let '(tag, tree) := _namespace_split (tag child) tree in
      node_tree <- store_child node_tree tag tree ;;
      children_loop cs' node_tree
  end.
End ChildLoop.

(** [_parse_node(self, node)] *)
Fixpoint _parse_node (node : Element) : res dict :=
  match node with
  | mkElement _ text attrib children =>
      let node_tree : dict := [] in
      let node_tree :=
        match text with
        | Some t =>
            if truthy t && truthy (strip t)
            then DotDict.__setattr__ node_tree "value" (VStr t)
            else node_tree
        | None => node_tree
        end in
      let node_tree := fold_left store_attrib attrib node_tree in
      children_loop _parse_node children node_tree
  end.

Section FromString.
(** [ET.fromstring] of the standard library; [None] is its
    [ParseError]. *)
Variable ET_fromstring : string -> option Element.

(** [fromstring(self, str_)] *)
Definition fromstring (str_ : string) : res dict :=
  match ET_fromstring str_ with
  | None => Err ParseError
  | Some text =>
      tree <- _parse_node text ;;
      let '(root_tag, root_tree) := _namespace_split (tag text) tree in
      Ok [(root_tag, VDotDict root_tree)]
  end.
End FromString.

End XML2Dict.

(** ** Codecs of the builtin types *)

#[global] Instance byte_eq_dec : EqDecision byte := Byte.byte_eq_dec.

(** [b.decode(encoding="iso-8859-1")]: byte [n] is the character [n]. *)
Definition decode_iso_8859_1 (b : list byte) : res string :=
  Ok (string_of_list_byte b).

(** [s.encode()], that is UTF-8, on the code points 0..255: one byte
    below 128, two bytes from there on. *)
Definition encode_char (c : ascii) : list byte :=
  let n := N_of_ascii c in
  if (n <? 128)%N then [byte_of_ascii c]
  else [byte_of_ascii (ascii_of_N (192 + N.shiftr n 6));
        byte_of_ascii (ascii_of_N (128 + N.land n 63))].

Fixpoint encode (s : string) : list byte :=
  match s with
  | EmptyString => []
  | String c r => encode_char c ++ encode r
  end.

(** ** class DictWrapper *)

Module DictWrapper.

Record t : Type := mk {
  response : value;
  _original : value;
  _result_key : option string;
  _mydict : dict;
  _response_dict : value
}.

Section Init.
Variable ET_fromstring : string -> option Element.

(** [__init__(self, xml, result_key=None)].  The handler of the decode
    error evaluates [exc.response], an attribute that
    [UnicodeDecodeError] does not have. *)
Definition __init__ (xml : value) (result_key : option string) : res t :=
  xml <- match xml with
         | VBytes b =>
             match decode_iso_8859_1 b with
             | Ok s => Ok (VStr s)
             | Err (UnicodeDecodeError _ _) => Err (AttributeError "response")
             | Err e => Err e
             end
         | _ => Ok xml
         end ;;
  let original := xml in
  stripped <- match original with
              | VStr s => Ok (remove_xml_namespace s)
              | _ => Err (TypeError "expected string or bytes-like object")
              end ;;
  mydict <- XML2Dict.fromstring ET_fromstring stripped ;;
  key0 <- match dict_keys mydict with
          | k :: _ => Ok k
          | [] => Err (IndexError "list index out of range")
          end ;;
  response_dict <- DotDict.get mydict key0 (VDotDict mydict) ;;
  Ok {| response := VNone;
        _original := original;
        _result_key := result_key;
        _mydict := mydict;
        _response_dict := response_dict |}.
End Init.

(** The property [original] *)
Definition original (self : t) : value := _original self.

(** The property [parsed] *)
Definition parsed (self : t) : res value :=
  match _result_key self with
  | Some (String _ _ as key) =>
      match _response_dict self with
      | VDotDict d => DotDict.get d key (_response_dict self)
      | VDict d =>
          Ok (match dict_getitem d key with
              | Some v => v
              | None => _response_dict self
              end)
      | _ => Err (AttributeError "get")
      end
  | _ => Ok (_response_dict self)
  end.

End DictWrapper.

(** ** class DataWrapper *)

Module DataWrapper.

Record t : Type := mk {
  original : list byte;
  response : value;
  headers : gmap string string
}.

Definition checksum_message : string :=
  "Wrong Content length, maybe amazon error...".

Section Init.
(** [mws.utils.crypto.calc_md5]: the digest of the payload, as the bytes
    of its base64 text. *)
Variable calc_md5 : list byte -> list byte.

(** [__init__(self, data, headers)] *)
Definition __init__ (data : list byte) (hdrs : gmap string string) : res t :=
  let self := {| original := data; response := VNone; headers := hdrs |} in
  if decide (is_Some (headers self !! "content-md5")) then
    let hash_ := calc_md5 (original self) in
    match headers self !! "content-md5" with
    | Some declared =>
        if decide (encode declared ≠ hash_)
        then Err (MWSError checksum_message VNone)
        else Ok self
    | None => Err (KeyError "content-md5")
    end
  else Ok self.
End Init.

(** The property [parsed] *)
Definition parsed (self : t) : list byte := original self.

Section Unzipped.
(** The working directory that [extractall] writes to, the [ZipFile]
    object, and the [with] block of the standard library as one step: the
    archive is opened over the payload, extracted and closed.  [Err msg]
    is an exception [exc] with [str(exc) = msg]; the directory may have
    changed by then. *)
Variable fs : Type.
Variable ZipFile : Type.
Variable extractall : list byte -> fs -> result string ZipFile * fs.

(** The property [unzipped]; [Ok None] is the return of [None]. *)
Definition unzipped (self : t) (cwd : fs) : res (option ZipFile) * fs :=
  match headers self !! "content-type" with
  | None => (Err (KeyError "content-type"), cwd)
  | Some content_type =>
      if decide (content_type = "application/zip") then
        match extractall (original self) cwd with
        | (Ok unzipped_fileobj, cwd') => (Ok (Some unzipped_fileobj), cwd')
        | (Err msg, cwd') => (Err (MWSError msg VNone), cwd')
        end
      else (Ok None, cwd)
  end.
End Unzipped.

End DataWrapper.

(** * Vocabulary of the statements *)

(** The test of [_value_or_node] on the items of a [DotDict]. *)
Definition single_value (d : dict) : bool :=
  dict_contains "value" d && Nat.eqb (length d) 1.

Definition single_value_node (v : value) : bool :=
  match v with
  | VDotDict d => single_value d
  | _ => false
  end.

(** A chain of [n] single-value nodes around [x]. *)
Fixpoint wrap_value (n : nat) (x : value) : value :=
  match n with
  | O => x
  | S m => VDotDict [("value", wrap_value m x)]
  end.

(** The value under a key after one more child with that tag, as a
    function of the value stored before. *)
Definition stored_after (stored : option value) (tree : value) : option value :=
  match stored with
  | None => Some tree
  | Some st =>
      match DotDict._value_or_node st with
      | Ok old =>
          if isinstance_list old then
            match XML2Dict.append_at_read st tree with
            | Ok st' => Some st'
            | Err _ => None
            end
          else Some (VList [old; tree])
      | Err _ => None
      end
  end.

(** The name under which a tag or attribute key is stored. *)
Definition local_name (tag : string) : string :=
  match XML2Dict.namespace_search tag with
  | Some (_, name) => name
  | None => tag
  end.

(** The node stored for the attribute [key] with the text [val]. *)
Definition attrib_node (key val : string) : value :=
  VDotDict
    match XML2Dict.namespace_search key with
    | Some (namespace, _) => [("value", VStr val); ("namespace", VStr namespace)]
    | None => [("value", VStr val)]
    end.

(** The node tree of [_parse_node] when the child loop starts. *)
Definition before_children (node : Element) : dict :=
  fold_left XML2Dict.store_attrib (attrib node)
    match text node with
    | Some t =>
        if truthy t && truthy (strip t)
        then DotDict.__setattr__ [] "value" (VStr t)
        else []
    | None => []
    end.

(** The tree that the child loop folds in for the child [c]. *)
Definition child_tree (c : Element) : value :=
  match XML2Dict._parse_node c with
  | Ok tree => VDotDict (snd (XML2Dict._namespace_split (tag c) tree))
  | Err _ => VNone
  end.

(** ** Documents and collaborators of the examples *)

Definition doc_plain : string := "<a><b>1</b></a>".

(** The text [<a xmlns=Qurn:xQ><ns2:b>1</ns2:b></a>], Q being the double
    quote. *)
Definition doc_namespaced : string :=
  "<a xmlns=" +:+ String quote "urn:x" +:+ String quote "><ns2:b>1</ns2:b></a>".

(** What [ET.fromstring] builds for [doc_plain]; this fragment of the
    library knows no other document and reports every other text as
    malformed. *)
Definition ET_examples (str_ : string) : option Element :=
  if decide (str_ = doc_plain)
  then Some (mkElement "a" None [] [mkElement "b" (Some "1") [] []])
  else None.

(** [calc_md5] on the payload of the test suite
    ([src/tests/utils_lib/test_small_fry.py]); other payloads are not
    needed. *)
Definition calc_md5_examples (data : list byte) : list byte :=
  if decide (data = list_byte_of_string "mws")
  then list_byte_of_string "mA5nPbh1CSx9M3dbkr3Cyg=="
  else [].

(** The empty archive: the end-of-central-directory record alone. *)
Definition empty_zip : list byte :=
  list_byte_of_string "PK" ++ [x05; x06] ++ replicate 18 x00.

(** An archive library for the examples: the working directory is the list
    of the written file names, the handle the list of the member names.
    The empty archive extracts nothing; every other payload is reported
    as no archive. *)
Definition extractall_examples (data : list byte) (cwd : list string)
  : result string (list string) * list string :=
  if decide (data = empty_zip) then (Ok [], cwd)
  else (Err "File is not a zip file", cwd).

(** What [ET.fromstring] builds for [<a>hi</a>], a root with text only;
    again a fragment that knows this document alone. *)
Definition ET_text_root (str_ : string) : option Element :=
  if decide (str_ = "<a>hi</a>")
  then Some (mkElement "a" (Some "hi") [] [])
  else None.

(** The text that [DictWrapper.__init__] works on: the argument itself or
    its decoding; no other type gets past the stripping. *)
Definition source_text (xml : value) : option string :=
  match xml with
  | VStr s => Some s
  | VBytes b => Some (string_of_list_byte b)
  | _ => None
  end.

(** ** Predicates on texts *)

(** [p in s]: the text [p] occurs in [s]. *)
Fixpoint occurs (p s : string) : bool :=
  match strip_prefix p s with
  | Some _ => true
  | None =>
      match s with
      | EmptyString => false
      | String _ r => occurs p r
      end
  end.

(** The character [c] occurs in [s]. *)
Fixpoint has_char (c : ascii) (s : string) : bool :=
  match s with
  | EmptyString => false
  | String a r => Ascii.eqb a c || has_char c r
  end.

(** Some character of [s] is no white space. *)
Fixpoint has_nonspace (s : string) : bool :=
  match s with
  | EmptyString => false
  | String c r => negb (isspace c) || has_nonspace r
  end.

(** ** Documents with namespace tokens

    A document as the stripper sees it: a sequence of texts to keep and of
    the tokens of the pattern, namely a declaration [ xmlns=QuriQ] or
    [ xmlns:ns2=QuriQ] (Q the double quote) and a prefix [ns2:] or
    [xml:]. *)

Inductive piece : Type :=
| Keep (s : string)
| Declaration (ns2 : bool) (uri : string)
| Prefix (xml : bool).

(** The document with its tokens. *)
Fixpoint render (ps : list piece) : string :=
  match ps with
  | [] => EmptyString
  | Keep s :: r => s +:+ render r
  | Declaration false uri :: r =>
      " xmlns=" +:+ String quote uri +:+ String quote (render r)
  | Declaration true uri :: r =>
      " xmlns:ns2=" +:+ String quote uri +:+ String quote (render r)
  | Prefix false :: r => "ns2:" +:+ render r
  | Prefix true :: r => "xml:" +:+ render r
  end.

(** The namespace-free document: the kept texts alone. *)
Fixpoint plain (ps : list piece) : string :=
  match ps with
  | [] => EmptyString
  | Keep s :: r => s +:+ plain r
  | _ :: r => plain r
  end.

(** One of [ xmlns], [ns2:] and [xml:] begins the text. *)
Definition token_at (t : string) : bool :=
  match strip_prefix " xmlns" t, strip_prefix "ns2:" t, strip_prefix "xml:" t with
  | None, None, None => false
  | _, _, _ => true
  end.

(** At no position of [s], read on into [next], does a token begin. *)
Fixpoint quiet (s next : string) : bool :=
  match s with
  | EmptyString => true
  | String _ r => negb (token_at (s +:+ next)) && quiet r next
  end.

(** The kept texts neither hold nor complete a token, and the value of
    every declaration is not empty and holds no double quote. *)
Fixpoint well_formed (ps : list piece) : bool :=
  match ps with
  | [] => true
  | Keep s :: r => quiet s (render r) && well_formed r
  | Declaration _ uri :: r =>
      truthy uri && negb (has_char quote uri) && well_formed r
  | Prefix _ :: r => well_formed r
  end.

(** [doc_namespaced] in pieces. *)
Definition pieces_example : list piece :=
  [Keep "<a"; Declaration false "urn:x"; Keep "><"; Prefix false;
   Keep "b>1</"; Prefix false; Keep "b></a>"].

(** [<ns2:a xmlns:ns2=Qurn:xQ xml:lang=QenQ><ns2:b>1</ns2:b></ns2:a>] in
    pieces. *)
Definition pieces_qualified : list piece :=
  [Keep "<"; Prefix false; Keep "a"; Declaration true "urn:x"; Keep " ";
   Prefix true; Keep ("lang=" +:+ String quote "en" +:+ String quote "><");
   Prefix false; Keep "b>1</"; Prefix false; Keep "b></"; Prefix false;
   Keep "a>"].

(** ** Induction principles *)

(** Induction on values, with the hypothesis for every item of a list or
    dictionary. *)
Section ValueInd.
Variable P : value -> Prop.
Hypothesis HNone : P VNone.
Hypothesis HStr : forall s, P (VStr s).
Hypothesis HBytes : forall b, P (VBytes b).
Hypothesis HList : forall l, Forall P l -> P (VList l).
Hypothesis HDict : forall d, Forall (fun kv => P (snd kv)) d -> P (VDict d).
Hypothesis HDotDict :
  forall d, Forall (fun kv => P (snd kv)) d -> P (VDotDict d).

Fixpoint value_nested_ind (v : value) : P v :=
  let items :=
    fix items (d : dict) : Forall (fun kv => P (snd kv)) d :=
      match d with
      | [] => List.Forall_nil _
      | (k, x) :: r =>
          List.Forall_cons _ (k, x) r (value_nested_ind x) (items r)
      end in
  match v with
  | VNone => HNone
  | VStr s => HStr s
  | VBytes b => HBytes b
  | VList l =>
      HList l
        ((fix elems (l : list value) : Forall P l :=
            match l with
            | [] => List.Forall_nil _
            | x :: r => List.Forall_cons _ x r (value_nested_ind x) (elems r)
            end) l)
  | VDict d => HDict d (items d)
  | VDotDict d => HDotDict d (items d)
  end.
End ValueInd.

(** Induction on elements, with the hypothesis for every child. *)
Section ElementInd.
Variable P : Element -> Prop.
Hypothesis HElement :
  forall t tx at_ ch, Forall P ch -> P (mkElement t tx at_ ch).

Fixpoint Element_nested_ind (e : Element) : P e :=
  match e with
  | mkElement t tx at_ ch =>
      HElement t tx at_ ch
        ((fix each (l : list Element) : Forall P l :=
            match l with
            | [] => List.Forall_nil _
            | c :: r => List.Forall_cons _ c r (Element_nested_ind c) (each r)
            end) ch)
  end.
End ElementInd.

(** * Properties *)

(** ** Dictionaries *)

Section DictFacts.
Implicit Types (d : dict) (k key : string) (v : value).

Lemma dict_contains_getitem key d :
  dict_contains key d = bool_decide (is_Some (dict_getitem d key)).
Proof.
  induction d as [|[k w] d IH]; simpl; [done|].
  by destruct (String.eqb k key).
Qed.

Lemma dict_contains_true key d :
  dict_contains key d = true <-> is_Some (dict_getitem d key).
Proof. rewrite dict_contains_getitem. apply bool_decide_eq_true. Qed.

Lemma dict_contains_false key d :
  dict_contains key d = false <-> dict_getitem d key = None.
Proof.
  rewrite dict_contains_getitem, bool_decide_eq_false.
  rewrite <- eq_None_not_Some. done.
Qed.

Lemma getitem_setitem_eq d key v :
  dict_getitem (dict_setitem d key v) key = Some v.
Proof.
  induction d as [|[k w] d IH]; simpl.
  - by rewrite String.eqb_refl.
  - destruct (String.eqb k key) eqn:E; simpl; by rewrite E.
Qed.

Lemma getitem_setitem_ne d key k v :
  key <> k -> dict_getitem (dict_setitem d key v) k = dict_getitem d k.
Proof.
  intros Hne. induction d as [|[k' w] d IH]; simpl.
  - by apply String.eqb_neq in Hne as ->.
  - destruct (String.eqb k' key) eqn:E; simpl.
    + apply String.eqb_eq in E as ->.
      by apply String.eqb_neq in Hne as ->.
    + by rewrite IH.
Qed.

Lemma getitem_pop_ne d key k :
  key <> k -> dict_getitem (dict_pop d key) k = dict_getitem d k.
Proof.
  intros Hne. induction d as [|[k' w] d IH]; simpl; [done|].
  destruct (String.eqb k' key) eqn:E; simpl.
  - apply String.eqb_eq in E as ->.
    by apply String.eqb_neq in Hne as ->.
  - by rewrite IH.
Qed.
End DictFacts.

(** ** Single-value collapse *)

Lemma single_value_inv d :
  single_value d = true -> exists v, d = [("value", v)].
Proof.
  unfold single_value. destruct d as [|[k v] [|? ?]]; simpl; try done.
  - destruct (String.eqb k "value") eqn:E; [|done].
    apply String.eqb_eq in E as ->. by eexists.
  - by rewrite andb_false_r.
Qed.

(** [_value_or_node] as the source has it: a single-value node is read
    with [__getitem__]. *)
Lemma _value_or_node_eq (d : dict) :
  DotDict._value_or_node (VDotDict d) =
  if single_value d then DotDict.__getitem__ d "value" else Ok (VDotDict d).
Proof.
  unfold single_value, DotDict.__getitem__. simpl.
  destruct (dict_contains "value" d && Nat.eqb (length d) 1); [|done].
  induction d as [|[k v] d IH]; simpl; [done|].
  by destruct (String.eqb k "value").
Qed.

(** Reading never fails on a stored value, and what it returns is not a
    single-value node any more. *)
Lemma _value_or_node_total (v : value) :
  exists r, DotDict._value_or_node v = Ok r /\ single_value_node r = false.
Proof.
  induction v as [| s | b | l _ | d _ | d IH] using value_nested_ind;
    try (eexists; split; reflexivity).
  destruct (single_value d) eqn:E.
  - destruct (single_value_inv d E) as [v ->].
    apply Forall_cons in IH as [(r & Hr & Hs) _].
    exists r. split; [|done]. simpl. exact Hr.
  - exists (VDotDict d). split; [|done].
    by rewrite _value_or_node_eq, E.
Qed.

Lemma _value_or_node_wrap n x :
  DotDict._value_or_node (wrap_value n x) = DotDict._value_or_node x.
Proof. induction n as [|n IH]; [done|]. simpl. exact IH. Qed.

(** C1, as the specification words it, fails: the node stored under [k] is
    a single-value node around a single-value node around the text [x], and
    the read of [k] returns the text, not the inner node. *)
Lemma getitem_one_level_counterexample :
  let inner := VDotDict [("value", VStr "x")] in
  let self := [("k", VDotDict [("value", inner)])] in
  DotDict.__getitem__ self "k" = Ok (VStr "x") /\
  DotDict.__getitem__ self "k" <> Ok inner.
Proof. split; [reflexivity | discriminate]. Qed.

(** C1 (amended): when the value stored under [key] is a node whose only
    key is [value], the read of [key] returns what the read of [value] on
    that node returns.  The collapse is therefore repeated through every
    nested single-value node: the result is never a single-value node, and
    any chain of single-value nodes around a text reads back as the text. *)
Theorem getitem_single_value_collapse (self n : dict) (key : string) :
  dict_getitem self key = Some (VDotDict n) ->
  single_value n = true ->
  DotDict.__getitem__ self key = DotDict.__getitem__ n "value" /\
  (exists r, DotDict.__getitem__ self key = Ok r /\ single_value_node r = false) /\
  (forall depth s, VDotDict n = wrap_value (S depth) (VStr s) ->
                   DotDict.__getitem__ self key = Ok (VStr s)).
Proof.
  intros Hget Hsingle.
  assert (Hread : DotDict.__getitem__ self key
                  = DotDict._value_or_node (VDotDict n))
    by (unfold DotDict.__getitem__; by rewrite Hget).
  rewrite Hread. split; [|split].
  - by rewrite _value_or_node_eq, Hsingle.
  - apply _value_or_node_total.
  - intros depth s ->. by rewrite _value_or_node_wrap.
Qed.

Lemma getitem_single_value_collapse_witness :
  let self := [("k", VDotDict [("value", VDotDict [("value", VStr "x")])])] in
  DotDict.__getitem__ self "k" = Ok (VStr "x").
Proof.
  intros self.
  apply (proj2 (proj2 (getitem_single_value_collapse self
            [("value", VDotDict [("value", VStr "x")])] "k"
            eq_refl eq_refl)) 1 "x").
  reflexivity.
Defined.

(** ** Iteration *)

(** C8: iterating a node yields one item, the node itself, whatever its
    keys are (a single-value node is not collapsed); a list yields its
    elements, so one loop serves both. *)
Theorem iter_lone_node (self : dict) (siblings : list value) :
  DotDict.__iter__ self = Ok [VDotDict self] /\
  py_iter (VDotDict self) = Some (Ok [VDotDict self]) /\
  py_iter (VList siblings) = Some (Ok siblings).
Proof. done. Qed.

(** ** The parser *)

(** Appending to the object that a read returns changes what the next read
    returns, and nothing else about it. *)
Lemma append_at_read_ok (v x : value) (l : list value) :
  DotDict._value_or_node v = Ok (VList l) ->
  exists v', XML2Dict.append_at_read v x = Ok v' /\
             DotDict._value_or_node v' = Ok (VList (l ++ [x])).
Proof.
  revert l.
  induction v as [| s | b | l0 _ | d _ | d IH] using value_nested_ind;
    intros l Hread; try discriminate Hread.
  - injection Hread as ->. by eexists.
  - destruct (single_value d) eqn:E.
    + destruct (single_value_inv d E) as [v ->].
      apply Forall_cons in IH as [IH _].
      destruct (IH l Hread) as (v' & Happ & Hread').
      exists (VDotDict [("value", v')]). simpl in *. by rewrite Happ.
    + rewrite _value_or_node_eq, E in Hread. discriminate Hread.
Qed.

Lemma stored_after_list (l : list value) (tree : value) :
  stored_after (Some (VList l)) tree = Some (VList (l ++ [tree])).
Proof. done. Qed.

Lemma stored_after_lists (trees l : list value) :
  fold_left stored_after trees (Some (VList l)) = Some (VList (l ++ trees)).
Proof.
  revert l. induction trees as [|t trees IH]; intros l; simpl.
  - by rewrite app_nil_r.
  - rewrite IH. by rewrite <- app_assoc.
Qed.

(** One round of the child loop never raises; it changes the entry of the
    tag as [stored_after] says and no other entry. *)
Lemma store_child_ok (node_tree tree : dict) (tag : string) :
  exists node_tree',
    XML2Dict.store_child node_tree tag tree = Ok node_tree' /\
    dict_getitem node_tree' tag
      = stored_after (dict_getitem node_tree tag) (VDotDict tree) /\
    is_Some (dict_getitem node_tree' tag) /\
    forall k, tag <> k -> dict_getitem node_tree' k = dict_getitem node_tree k.
Proof.
  unfold XML2Dict.store_child, DotDict.__setitem__, DotDict.__getitem__.
  destruct (dict_getitem node_tree tag) as [st|] eqn:Hst.
  - assert (Hin : dict_contains tag node_tree = true)
      by (apply dict_contains_true; by rewrite Hst).
    rewrite Hin. simpl.
    destruct (_value_or_node_total st) as (old & Hold & _).
    unfold stored_after. rewrite Hold. simpl.
    destruct (isinstance_list old) eqn:Hl; simpl.
    + destruct old as [| | | l | |]; try discriminate Hl.
      destruct (append_at_read_ok st (VDotDict tree) l Hold) as (st' & Happ & _).
      unfold XML2Dict.getitem_append. rewrite Hst, Happ. simpl.
      eexists. split; [done|]. rewrite getitem_setitem_eq.
      repeat split; [done|]. intros k Hk. by apply getitem_setitem_ne.
    + unfold XML2Dict.getitem_append. rewrite getitem_setitem_eq. simpl.
      eexists. split; [done|]. rewrite getitem_setitem_eq.
      repeat split; [done|].
      intros k Hk. rewrite !getitem_setitem_ne by done.
      by apply getitem_pop_ne.
  - assert (Hin : dict_contains tag node_tree = false)
      by (by apply dict_contains_false).
    rewrite Hin. simpl. eexists. split; [done|].
    rewrite getitem_setitem_eq. repeat split; [done|].
    intros k Hk. by apply getitem_setitem_ne.
Qed.

Lemma _parse_node_eq (node : Element) :
  XML2Dict._parse_node node
  = XML2Dict.children_loop XML2Dict._parse_node (children node)
      (before_children node).
Proof. by destruct node. Qed.

Lemma _namespace_split_fst (tag : string) (d : dict) :
  fst (XML2Dict._namespace_split tag d) = local_name tag.
Proof.
  unfold XML2Dict._namespace_split, local_name.
  by destruct (XML2Dict.namespace_search tag) as [[? ?]|].
Qed.

Lemma store_attrib_eq (node_tree : dict) (key val : string) :
  XML2Dict.store_attrib node_tree (key, val)
  = dict_setitem node_tree (local_name key) (attrib_node key val).
Proof.
  unfold XML2Dict.store_attrib, XML2Dict._namespace_split, local_name,
    attrib_node.
  by destruct (XML2Dict.namespace_search key) as [[? ?]|].
Qed.

Lemma attrib_loop_other (attrs : list (string * string)) (d : dict) (k : string) :
  Forall (fun kv => local_name (fst kv) <> k) attrs ->
  dict_getitem (fold_left XML2Dict.store_attrib attrs d) k = dict_getitem d k.
Proof.
  revert d. induction attrs as [|[key val] attrs IH]; intros d Hall; [done|].
  apply Forall_cons in Hall as [Hne Hall]. cbn [fold_left].
  rewrite IH by done. rewrite store_attrib_eq. by apply getitem_setitem_ne.
Qed.

(** The child loop never raises when the recursive calls do not, and the
    entry of a key is the fold of [stored_after] over the children stored
    under it, in document order. *)
Lemma children_loop_ok (cs : list Element) :
  Forall (fun c => exists d, XML2Dict._parse_node c = Ok d) cs ->
  forall (node_tree : dict) (t : string),
  exists node_tree',
    XML2Dict.children_loop XML2Dict._parse_node cs node_tree = Ok node_tree' /\
    dict_getitem node_tree' t
    = fold_left stored_after
        (map child_tree (filter (fun c => local_name (tag c) = t) cs))
        (dict_getitem node_tree t).
Proof.
  induction cs as [|c cs IH]; intros Hall node_tree t; simpl.
  - by eexists.
  - apply Forall_cons in Hall as [[d Hd] Hall]. rewrite Hd. simpl.
    pose proof (_namespace_split_fst (tag c) d) as Hfst.
    assert (Htree : child_tree c
                    = VDotDict (snd (XML2Dict._namespace_split (tag c) d)))
      by (unfold child_tree; by rewrite Hd).
    destruct (XML2Dict._namespace_split (tag c) d) as [tg tr].
    simpl in Hfst, Htree. subst tg.
    destruct (store_child_ok node_tree tr (local_name (tag c)))
      as (nt1 & Hstore & Hkey & _ & Hother).
    rewrite Hstore. simpl.
    destruct (IH Hall nt1 t) as (nt2 & Hloop & Hget).
    exists nt2. split; [done|]. rewrite Hget.
    rewrite filter_cons. case_decide as Ht; simpl.
    + subst t. by rewrite Hkey, Htree.
    + by rewrite Hother.
Qed.

(** [_parse_node] returns a node tree for every element. *)
Lemma _parse_node_total (node : Element) :
  exists node_tree, XML2Dict._parse_node node = Ok node_tree.
Proof.
  induction node as [t tx at_ ch IH] using Element_nested_ind.
  rewrite _parse_node_eq.
  destruct (children_loop_ok ch IH (before_children (mkElement t tx at_ ch)) "")
    as (nt & Hnt & _).
  by exists nt.
Qed.

Lemma children_total (cs : list Element) :
  Forall (fun c => exists d, XML2Dict._parse_node c = Ok d) cs.
Proof. apply Forall_forall. intros c _. apply _parse_node_total. Qed.

(** The entry of every key in the result of [_parse_node]. *)
Lemma _parse_node_entry (node : Element) (t : string) :
  exists node_tree,
    XML2Dict._parse_node node = Ok node_tree /\
    dict_getitem node_tree t
    = fold_left stored_after
        (map child_tree (filter (fun c => local_name (tag c) = t) (children node)))
        (dict_getitem (before_children node) t).
Proof.
  rewrite _parse_node_eq. apply children_loop_ok, children_total.
Qed.

(** *** Attributes *)

Lemma no_child_named (cs : list Element) (t : string) :
  Forall (fun c => local_name (tag c) <> t) cs ->
  filter (fun c => local_name (tag c) = t) cs = [].
Proof.
  induction cs as [|c cs IH]; intros Hall; [done|].
  apply Forall_cons in Hall as [Hc Hcs].
  rewrite filter_cons. case_decide; [done|]. by apply IH.
Qed.

(** C3, as the specification words it, fails: for the element [a] with the
    attribute [k] of text [v] and nothing else, the value stored under [k]
    is a node holding the text under [value], not the text. *)
Lemma attribute_plain_string_counterexample :
  let node := mkElement "a" None [("k", "v")] [] in
  XML2Dict._parse_node node = Ok [("k", VDotDict [("value", VStr "v")])] /\
  (forall node_tree, XML2Dict._parse_node node = Ok node_tree ->
                     dict_getitem node_tree "k" <> Some (VStr "v")).
Proof.
  split; [reflexivity|]. intros node_tree H.
  vm_compute in H. injection H as <-. discriminate.
Qed.

(** C3 (amended): an attribute is stored under its local name as a node
    that holds the text under [value], together with the namespace under
    [namespace] when the key is written with one, provided no later
    attribute and no child element has the same local name.  Without a
    namespace the node is a single-value node, so the read of the name
    through key access returns the text; with one, it returns the node. *)
Theorem attribute_stored_as_value_node
    (node : Element) (before after : list (string * string)) (key val : string) :
  attrib node = before ++ (key, val) :: after ->
  Forall (fun kv => local_name (fst kv) <> local_name key) after ->
  Forall (fun c => local_name (tag c) <> local_name key) (children node) ->
  exists node_tree,
    XML2Dict._parse_node node = Ok node_tree /\
    dict_getitem node_tree (local_name key) = Some (attrib_node key val) /\
    (XML2Dict.namespace_search key = None ->
       local_name key = key /\
       attrib_node key val = VDotDict [("value", VStr val)] /\
       DotDict.__getitem__ node_tree key = Ok (VStr val)) /\
    (forall namespace name,
       XML2Dict.namespace_search key = Some (namespace, name) ->
       local_name key = name /\
       attrib_node key val
       = VDotDict [("value", VStr val); ("namespace", VStr namespace)] /\
       DotDict.__getitem__ node_tree name = Ok (attrib_node key val)).
Proof.
  intros Hattrib Hafter Hchildren.
  destruct (_parse_node_entry node (local_name key)) as (nt & Hnt & Hget).
  assert (Hnone : filter (fun c => local_name (tag c) = local_name key)
                    (children node) = []).
  { by apply no_child_named. }
  rewrite Hnone in Hget. simpl in Hget.
  assert (Hstored : dict_getitem nt (local_name key) = Some (attrib_node key val)).
  { rewrite Hget. unfold before_children. rewrite Hattrib, fold_left_app.
    cbn [fold_left]. rewrite attrib_loop_other by done.
    rewrite store_attrib_eq. apply getitem_setitem_eq. }
  exists nt. split; [done|]. split; [done|].
  unfold DotDict.__getitem__. clear Hget Hafter Hchildren Hnone.
  unfold local_name, attrib_node in *. split.
  - intros Hns. rewrite Hns in *. by rewrite Hstored.
  - intros namespace name Hns. rewrite Hns in *. by rewrite Hstored.
Qed.

Lemma attribute_stored_as_value_node_witness :
  exists node_tree,
    XML2Dict._parse_node
      (mkElement "a" None [("k", "v"); ("{urn:x}j", "w")] [mkElement "b" None [] []])
    = Ok node_tree /\
    dict_getitem node_tree "k" = Some (VDotDict [("value", VStr "v")]) /\
    DotDict.__getitem__ node_tree "k" = Ok (VStr "v").
Proof.
  destruct (attribute_stored_as_value_node
              (mkElement "a" None [("k", "v"); ("{urn:x}j", "w")]
                 [mkElement "b" None [] []])
              [] [("{urn:x}j", "w")] "k" "v" eq_refl)
    as (nt & Hnt & Hget & Hplain & _).
  - repeat constructor. vm_compute. discriminate.
  - repeat constructor. vm_compute. discriminate.
  - exists nt. destruct (Hplain eq_refl) as (_ & _ & Hread). by repeat split.
Defined.

(** *** Repeated tags *)

(** Where the folding of repeated tags works as intended: the key is not
    taken by the text or an attribute, and the first child stored under it
    does not read back as a list.  The entry is then a list with one
    element per child, in document order; its first element is the first
    child as key access reads it, the others are the nodes of the later
    children. *)
Lemma repeated_tag_sequence
    (node : Element) (t : string) (c1 c2 : Element) (rest : list Element)
    (old : value) :
  dict_getitem (before_children node) t = None ->
  filter (fun c => local_name (tag c) = t) (children node) = c1 :: c2 :: rest ->
  DotDict._value_or_node (child_tree c1) = Ok old ->
  isinstance_list old = false ->
  exists node_tree,
    XML2Dict._parse_node node = Ok node_tree /\
    dict_getitem node_tree t
    = Some (VList (old :: child_tree c2 :: map child_tree rest)).
Proof.
  intros Hfresh Hocc Hold Hl.
  destruct (_parse_node_entry node t) as (nt & Hnt & Hget).
  exists nt. split; [done|].
  rewrite Hget, Hocc, Hfresh. cbn [map fold_left].
  unfold stored_after at 2. unfold stored_after at 2. rewrite Hold, Hl.
  by rewrite stored_after_lists.
Qed.

(** C2, as the specification words it, fails: in the element tree of
    [<a b=QxQ><b/><b/></a>] (Q the double quote) the tag [b] occurs twice
    under [a], and the entry of [b] is a list of three elements, because the
    attribute [b] was stored under the same key before the children. *)
Lemma repeated_tag_length_counterexample :
  let b := mkElement "b" None [] [] in
  let a := mkElement "a" None [("b", "x")] [b; b] in
  length (filter (fun c => local_name (tag c) = "b") (children a)) = 2 /\
  XML2Dict._parse_node a
  = Ok [("b", VList [VStr "x"; VDotDict []; VDotDict []])] /\
  (forall node_tree l,
     XML2Dict._parse_node a = Ok node_tree ->
     dict_getitem node_tree "b" = Some (VList l) ->
     length l <> 2).
Proof.
  split; [reflexivity|]. split; [reflexivity|].
  intros node_tree l Hparse Hget. vm_compute in Hparse.
  injection Hparse as <-. injection Hget as <-. discriminate.
Qed.

Lemma child_tree_is_node (c : Element) :
  exists tree, child_tree c = VDotDict tree.
Proof.
  unfold child_tree. destruct (_parse_node_total c) as [d ->]. by eexists.
Qed.

Lemma _value_or_node_other (v : value) :
  single_value_node v = false -> DotDict._value_or_node v = Ok v.
Proof.
  destruct v as [| | | | |d]; try done. intros H.
  rewrite _value_or_node_eq. simpl in H. by rewrite H.
Qed.

(** C2 (amended): when a tag occurs two or more times among the children
    of an element, the key is not already taken by the text or an attribute
    of the element, and the node of the first of these children is not a
    single-value node, then the entry of the tag is a list with one element
    per occurrence, the nodes of these children in document order; key
    access reads it as that list. *)
Theorem repeated_tag_in_document_order
    (node : Element) (t : string) (c1 c2 : Element) (rest : list Element) :
  dict_getitem (before_children node) t = None ->
  filter (fun c => local_name (tag c) = t) (children node) = c1 :: c2 :: rest ->
  single_value_node (child_tree c1) = false ->
  exists node_tree,
    XML2Dict._parse_node node = Ok node_tree /\
    dict_getitem node_tree t = Some (VList (map child_tree (c1 :: c2 :: rest))) /\
    DotDict.__getitem__ node_tree t
    = Ok (VList (map child_tree (c1 :: c2 :: rest))) /\
    length (map child_tree (c1 :: c2 :: rest))
    = length (filter (fun c => local_name (tag c) = t) (children node)).
Proof.
  intros Hfresh Hocc Hnode.
  destruct (child_tree_is_node c1) as [tree Htree].
  destruct (repeated_tag_sequence node t c1 c2 rest (child_tree c1))
    as (nt & Hnt & Hget); try done.
  - by apply _value_or_node_other.
  - by rewrite Htree.
  - exists nt. split; [done|]. split; [done|]. split.
    + unfold DotDict.__getitem__. by rewrite Hget.
    + by rewrite Hocc, length_map.
Qed.

Lemma repeated_tag_in_document_order_witness :
  let b1 := mkElement "b" None [("id", "1")] [] in
  let b2 := mkElement "b" (Some "two") [] [] in
  let b3 := mkElement "b" None [] [mkElement "c" None [] []] in
  let a := mkElement "a" None [("k", "v")] [b1; mkElement "d" None [] []; b2; b3] in
  exists node_tree,
    XML2Dict._parse_node a = Ok node_tree /\
    dict_getitem node_tree "b"
    = Some (VList [VDotDict [("id", VDotDict [("value", VStr "1")])];
                   VDotDict [("value", VStr "two")];
                   VDotDict [("c", VDotDict [])]]).
Proof.
  intros b1 b2 b3 a.
  destruct (repeated_tag_in_document_order a "b" b1 b2 [b3])
    as (nt & Hnt & Hget & _); [reflexivity | reflexivity | reflexivity |].
  exists nt. split; [exact Hnt | exact Hget].
Defined.

(** Where the read of the first child does collapse: in the element tree of
    [<a><b><value/><value/></b><b/></a>] the second [b] goes into the list
    of the two [value] children of the first, and the entry of [b] stays a
    node. *)
Example repeated_tag_after_collapsing_child :
  let value_ := mkElement "value" None [] [] in
  let a := mkElement "a" None []
             [mkElement "b" None [] [value_; value_]; mkElement "b" None [] []] in
  XML2Dict._parse_node a
  = Ok [("b", VDotDict [("value", VList [VDotDict []; VDotDict []; VDotDict []])])].
Proof. reflexivity. Qed.

(** In the element tree of [<a><b>1</b><b>2</b></a>] it puts the text of
    the first [b], not its node, at the head of the list. *)
Example repeated_text_children :
  XML2Dict._parse_node
    (mkElement "a" None []
       [mkElement "b" (Some "1") [] []; mkElement "b" (Some "2") [] []])
  = Ok [("b", VList [VStr "1"; VDotDict [("value", VStr "2")]])].
Proof. reflexivity. Qed.

(** ** DictWrapper *)

(** Decoding keeps the length: one character per byte. *)
Lemma decoded_length (b : list byte) :
  String.length (string_of_list_byte b) = length b.
Proof.
  unfold string_of_list_byte.
  induction b as [|c b IH]; simpl; [done|]. by f_equal.
Qed.

(** Construction from text: the parser decides. *)
Lemma DictWrapper_init_str ET_fromstring (s : string) (result_key : option string) :
  match ET_fromstring (remove_xml_namespace s) with
  | None => DictWrapper.__init__ ET_fromstring (VStr s) result_key = Err ParseError
  | Some _ =>
      exists w, DictWrapper.__init__ ET_fromstring (VStr s) result_key = Ok w /\
                DictWrapper._original w = VStr s
  end.
Proof.
  unfold DictWrapper.__init__, XML2Dict.fromstring. simpl.
  destruct (ET_fromstring (remove_xml_namespace s)) as [e|]; [|done].
  destruct (_parse_node_total e) as [tree ->]. simpl.
  destruct (XML2Dict._namespace_split (tag e) tree) as [root_tag root_tree].
  simpl. unfold DotDict.get, DotDict.__getitem__. simpl.
  rewrite String.eqb_refl.
  destruct (_value_or_node_total (VDotDict root_tree)) as (r & -> & _).
  simpl. by eexists.
Qed.

(** Construction from bytes is construction from their decoding. *)
Lemma DictWrapper_init_bytes ET_fromstring (b : list byte) (result_key : option string) :
  DictWrapper.__init__ ET_fromstring (VBytes b) result_key
  = DictWrapper.__init__ ET_fromstring (VStr (string_of_list_byte b)) result_key.
Proof. done. Qed.

(** C4, as the specification words it, fails for bytes: [original] is the
    decoded text, a [str], not the bytes that were passed in. *)
Lemma original_bytes_counterexample :
  let xml := VBytes (list_byte_of_string doc_plain) in
  exists w, DictWrapper.__init__ ET_examples xml None = Ok w /\
            DictWrapper.original w = VStr doc_plain /\
            DictWrapper.original w <> xml.
Proof. eexists. split; [reflexivity|]. split; [reflexivity|discriminate]. Qed.

(** C4 (amended): construction succeeds on text and on bytes only; for
    text, [original] is that text unchanged, and for bytes it is the text
    they decode to under iso-8859-1, one character per byte. *)
Theorem original_is_source_text
    ET_fromstring (xml : value) (result_key : option string) (w : DictWrapper.t) :
  DictWrapper.__init__ ET_fromstring xml result_key = Ok w ->
  (exists s, xml = VStr s /\ DictWrapper.original w = VStr s) \/
  (exists b, xml = VBytes b /\
             DictWrapper.original w = VStr (string_of_list_byte b) /\
             String.length (string_of_list_byte b) = length b).
Proof.
  intros Hinit.
  assert (Hstr : forall s, DictWrapper.__init__ ET_fromstring (VStr s) result_key
                           = Ok w -> DictWrapper.original w = VStr s).
  { intros s H. pose proof (DictWrapper_init_str ET_fromstring s result_key) as Hs.
    destruct (ET_fromstring (remove_xml_namespace s)).
    - destruct Hs as (w' & Hw' & Ho). rewrite Hw' in H. by injection H as <-.
    - rewrite Hs in H. discriminate H. }
  destruct xml as [| s | b | l | d | d]; try discriminate Hinit.
  - left. exists s. split; [done|]. by apply Hstr.
  - right. exists b. rewrite DictWrapper_init_bytes in Hinit.
    split; [done|]. split; [by apply Hstr|]. apply decoded_length.
Qed.

Lemma original_is_source_text_witness :
  exists w, DictWrapper.__init__ ET_examples
              (VBytes (list_byte_of_string doc_plain)) None = Ok w /\
            DictWrapper.original w = VStr doc_plain.
Proof.
  eexists. split; [reflexivity|].
  destruct (original_is_source_text ET_examples
              (VBytes (list_byte_of_string doc_plain)) None _ eq_refl)
    as [(s & Hs & _) | (b & Hb & Ho & _)].
  - discriminate Hs.
  - injection Hb as <-. exact Ho.
Defined.


(** ** DataWrapper *)

Section DataWrapperFacts.
Variable calc_md5 : list byte -> list byte.
Implicit Types (data : list byte) (hdrs : gmap string string).

(** The three outcomes of construction. *)
Lemma DataWrapper_init_cases data hdrs :
  DataWrapper.__init__ calc_md5 data hdrs
  = match hdrs !! "content-md5" with
    | Some declared =>
        if decide (encode declared = calc_md5 data)
        then Ok (DataWrapper.mk data VNone hdrs)
        else Err (MWSError DataWrapper.checksum_message VNone)
    | None => Ok (DataWrapper.mk data VNone hdrs)
    end.
Proof.
  unfold DataWrapper.__init__. simpl.
  destruct (hdrs !! "content-md5") as [declared|] eqn:E.
  - rewrite decide_True by done.
    destruct (decide (encode declared = calc_md5 data)).
    + by rewrite decide_False by (by intros ?).
    + by rewrite decide_True.
  - rewrite decide_False; [done|]. by intros [? ?].
Qed.

(** C5: construction raises exactly when the headers hold [content-md5]
    with a value whose bytes differ from the digest of the payload, and
    then it raises the checksum [MWSError]; without the header, or with
    the value of the digest, it succeeds and [parsed] is the payload. *)
Theorem checksum_validation data hdrs :
  (forall e,
     DataWrapper.__init__ calc_md5 data hdrs = Err e <->
     e = MWSError DataWrapper.checksum_message VNone /\
     exists declared, hdrs !! "content-md5" = Some declared /\
                      encode declared <> calc_md5 data) /\
  (forall w,
     DataWrapper.__init__ calc_md5 data hdrs = Ok w <->
     w = DataWrapper.mk data VNone hdrs /\
     (hdrs !! "content-md5" = None \/
      exists declared, hdrs !! "content-md5" = Some declared /\
                       encode declared = calc_md5 data)) /\
  (forall w,
     DataWrapper.__init__ calc_md5 data hdrs = Ok w ->
     DataWrapper.parsed w = data).
Proof.
  rewrite DataWrapper_init_cases.
  destruct (hdrs !! "content-md5") as [declared|];
    [destruct (decide (encode declared = calc_md5 data)) as [Heq|Hne]|].
  - split; [|split].
    + intros e. split; [done|]. intros (_ & d & [= <-] & Hd). done.
    + intros w. split; [intros [= <-]; eauto | by intros [-> _]].
    + by intros w [= <-].
  - split; [|split].
    + intros e. split; [intros [= <-]; eauto | by intros [-> _]].
    + intros w. split; [done|]. intros (_ & [?|(d & [= <-] & Hd)]); done.
    + done.
  - split; [|split].
    + intros e. split; [done|]. intros (_ & d & ? & _). done.
    + intros w. split; [intros [= <-]; eauto | by intros [-> _]].
    + by intros w [= <-].
Qed.
End DataWrapperFacts.

(** The payload and digest of the test suite: a header with the digest is
    accepted and [parsed] is the payload; a header with another value is
    refused. *)
Lemma checksum_validation_witness :
  let data := list_byte_of_string "mws" in
  (exists w, DataWrapper.__init__ calc_md5_examples data
               {["content-md5" := "mA5nPbh1CSx9M3dbkr3Cyg=="]} = Ok w /\
             DataWrapper.parsed w = data) /\
  DataWrapper.__init__ calc_md5_examples data {["content-md5" := "not a hash"]}
  = Err (MWSError DataWrapper.checksum_message VNone).
Proof.
  intros data. split.
  - exists (DataWrapper.mk data VNone {["content-md5" := "mA5nPbh1CSx9M3dbkr3Cyg=="]}).
    split; [|reflexivity].
    apply (proj1 (proj2 (checksum_validation calc_md5_examples data
                           {["content-md5" := "mA5nPbh1CSx9M3dbkr3Cyg=="]}))).
    split; [reflexivity|]. right. eexists. split; [reflexivity|].
    vm_compute. reflexivity.
  - apply (proj1 (checksum_validation calc_md5_examples data
                    {["content-md5" := "not a hash"]})).
    split; [reflexivity|]. eexists. split; [reflexivity|].
    vm_compute. discriminate.
Defined.

Section UnzippedFacts.
Variables fs ZipFile : Type.
Variable extractall : list byte -> fs -> result string ZipFile * fs.
Implicit Types (self : DataWrapper.t) (cwd : fs).

(** C6: with the content type [application/zip] the payload is
    extracted into the working directory and the archive object is
    returned, and a failure of the extraction is raised as an [MWSError]
    with its message; with any other content type the result is [None],
    no error is raised and the working directory is left as it is. *)
Theorem unzipped_by_content_type self cwd (content_type : string) :
  DataWrapper.headers self !! "content-type" = Some content_type ->
  (content_type = "application/zip" ->
     (forall archive cwd',
        extractall (DataWrapper.original self) cwd = (Ok archive, cwd') ->
        DataWrapper.unzipped fs ZipFile extractall self cwd
        = (Ok (Some archive), cwd')) /\
     (forall msg cwd',
        extractall (DataWrapper.original self) cwd = (Err msg, cwd') ->
        DataWrapper.unzipped fs ZipFile extractall self cwd
        = (Err (MWSError msg VNone), cwd'))) /\
  (content_type <> "application/zip" ->
     DataWrapper.unzipped fs ZipFile extractall self cwd = (Ok None, cwd)).
Proof.
  intros Hct. unfold DataWrapper.unzipped. rewrite Hct. split.
  - intros ->. rewrite decide_True by done.
    split; intros ? ? ->; done.
  - intros Hne. by rewrite decide_False.
Qed.

(** C10: without a [content-type] header, [unzipped] raises the
    [KeyError] of the lookup and returns nothing, although the same
    headers, having no [content-md5] either way, pass construction. *)
Theorem unzipped_requires_content_type self cwd :
  DataWrapper.headers self !! "content-type" = None ->
  DataWrapper.unzipped fs ZipFile extractall self cwd
  = (Err (KeyError "content-type"), cwd) /\
  (forall calc_md5,
     DataWrapper.headers self !! "content-md5" = None ->
     DataWrapper.__init__ calc_md5 (DataWrapper.original self)
       (DataWrapper.headers self)
     = Ok (DataWrapper.mk (DataWrapper.original self) VNone
             (DataWrapper.headers self))).
Proof.
  intros Hct. unfold DataWrapper.unzipped. rewrite Hct. split; [done|].
  intros calc_md5 Hmd5. by rewrite DataWrapper_init_cases, Hmd5.
Qed.
End UnzippedFacts.

Lemma unzipped_by_content_type_witness :
  DataWrapper.unzipped _ _ extractall_examples
    (DataWrapper.mk empty_zip VNone {["content-type" := "application/zip"]}) []
  = (Ok (Some []), []) /\
  DataWrapper.unzipped _ _ extractall_examples
    (DataWrapper.mk (list_byte_of_string "mws") VNone
       {["content-type" := "application/zip"]}) []
  = (Err (MWSError "File is not a zip file" VNone), []) /\
  DataWrapper.unzipped _ _ extractall_examples
    (DataWrapper.mk (list_byte_of_string "mws") VNone
       {["content-type" := "text/xml"]}) []
  = (Ok None, []).
Proof.
  split; [|split].
  - destruct (unzipped_by_content_type (list string) (list string)
                extractall_examples
                (DataWrapper.mk empty_zip VNone
                   {["content-type" := "application/zip"]})
                [] "application/zip") as [Hzip _]; [reflexivity|].
    destruct (Hzip eq_refl) as [Hok _]. apply Hok. reflexivity.
  - destruct (unzipped_by_content_type (list string) (list string)
                extractall_examples
                (DataWrapper.mk (list_byte_of_string "mws") VNone
                   {["content-type" := "application/zip"]})
                [] "application/zip") as [Hzip _]; [reflexivity|].
    destruct (Hzip eq_refl) as [_ Herr]. apply Herr. reflexivity.
  - destruct (unzipped_by_content_type (list string) (list string)
                extractall_examples
                (DataWrapper.mk (list_byte_of_string "mws") VNone
                   {["content-type" := "text/xml"]})
                [] "text/xml") as [_ Hother]; [reflexivity|].
    apply Hother. discriminate.
Defined.

Lemma unzipped_requires_content_type_witness :
  DataWrapper.unzipped _ _ extractall_examples
    (DataWrapper.mk empty_zip VNone ∅) []
  = (Err (KeyError "content-type"), []).
Proof.
  destruct (unzipped_requires_content_type (list string) (list string)
              extractall_examples (DataWrapper.mk empty_zip VNone ∅) [])
    as [Hraise _]; [reflexivity|].
  exact Hraise.
Defined.


(** * Further properties of the module *)

(** ** DotDict: reads and writes *)

(** X1: key access raises exactly for a key that is not in the node, and
    what it raises is the [KeyError] of that key; a key that is present is
    always read. *)
Theorem getitem_raises_only_missing_key (self : dict) (key : string) :
  (forall e, DotDict.__getitem__ self key = Err e <->
             e = KeyError key /\ dict_contains key self = false) /\
  (dict_contains key self = true <->
   exists r, DotDict.__getitem__ self key = Ok r).
Proof.
  unfold DotDict.__getitem__.
  destruct (dict_getitem self key) as [node|] eqn:Hget.
  - assert (Hin : dict_contains key self = true)
      by (apply dict_contains_true; by rewrite Hget).
    destruct (_value_or_node_total node) as (r & -> & _). rewrite Hin.
    split; [|split; eauto].
    intros e. split; [done|]. by intros [_ ?].
  - apply dict_contains_false in Hget as Hin. rewrite Hin. split.
    + intros e. split; [by intros [= <-]|by intros [-> _]].
    + split; [done|]. by intros [r ?].
Qed.

(** X2: [get] never raises: for a missing key it returns the default, for
    a present key what key access returns. *)
Theorem get_never_raises (self : dict) (key : string) (default : value) :
  exists r, DotDict.get self key default = Ok r /\
    (dict_contains key self = false -> r = default) /\
    (dict_contains key self = true -> DotDict.__getitem__ self key = Ok r).
Proof.
  unfold DotDict.get, DotDict.__getitem__.
  destruct (dict_getitem self key) as [node|] eqn:Hget.
  - assert (Hin : dict_contains key self = true)
      by (apply dict_contains_true; by rewrite Hget).
    destruct (_value_or_node_total node) as (r & -> & _).
    exists r. rewrite Hin. by repeat split.
  - apply dict_contains_false in Hget as Hin. exists default.
    rewrite Hin. by repeat split.
Qed.

(** X3: a write by attribute or by key stores the value verbatim under the
    key; the next read of the key, by key or through [__getattr__] (the
    attribute read of a name that is no attribute of [dict]), is the
    collapsing read of that value, so it returns the value itself unless
    it is a single-value node; the reads of the other keys do not change. *)
Theorem write_then_read (self : dict) (key : string) (v : value) :
  DotDict.__setattr__ self key v = DotDict.__setitem__ self key v /\
  dict_getitem (DotDict.__setattr__ self key v) key = Some v /\
  DotDict.__getitem__ (DotDict.__setattr__ self key v) key
  = DotDict._value_or_node v /\
  DotDict.__getattr__ (DotDict.__setitem__ self key v) key
  = DotDict._value_or_node v /\
  (single_value_node v = false ->
   DotDict.__getitem__ (DotDict.__setattr__ self key v) key = Ok v) /\
  (forall k, key <> k ->
     DotDict.__getitem__ (DotDict.__setattr__ self key v) k
     = DotDict.__getitem__ self k).
Proof.
  unfold DotDict.__setattr__, DotDict.__getattr__, DotDict.__setitem__,
    DotDict.__getitem__.
  rewrite getitem_setitem_eq. repeat split; try done.
  - apply _value_or_node_other.
  - intros k Hk. by rewrite getitem_setitem_ne.
Qed.

Lemma write_then_read_witness :
  DotDict.__getitem__ (DotDict.__setattr__ [] "fish" (VStr "fish")) "fish"
  = Ok (VStr "fish").
Proof.
  apply (proj1 (proj2 (proj2 (proj2 (proj2
           (write_then_read [] "fish" (VStr "fish"))))))).
  reflexivity.
Defined.

(** X4: the collapsing read is idempotent: what a read returns is returned
    unchanged when it is read through [_value_or_node] again. *)
Theorem read_is_idempotent (v r : value) :
  DotDict._value_or_node v = Ok r -> DotDict._value_or_node r = Ok r.
Proof.
  intros Hread. destruct (_value_or_node_total v) as (r' & Hr' & Hs).
  rewrite Hread in Hr'. injection Hr' as <-. by apply _value_or_node_other.
Qed.

Lemma read_is_idempotent_witness :
  DotDict._value_or_node (VStr "x") = Ok (VStr "x").
Proof.
  apply (read_is_idempotent
           (VDotDict [("value", VDotDict [("value", VStr "x")])]) (VStr "x")).
  reflexivity.
Defined.

(** ** remove_xml_namespace *)

Lemma append_cons (c : ascii) (p r : string) :
  String c p +:+ r = String c (p +:+ r).
Proof. done. Qed.

Lemma append_nil (r : string) : EmptyString +:+ r = r.
Proof. done. Qed.

Lemma strip_prefix_app (p s r : string) :
  strip_prefix p s = Some r -> s = p +:+ r.
Proof.
  revert s. induction p as [|a p IH]; intros s H; simpl in *.
  - by injection H as ->.
  - destruct s as [|b s]; [done|].
    destruct (Ascii.eqb_spec a b) as [->|]; [|done].
    by rewrite append_cons, <- (IH s H).
Qed.

Lemma span_not_quote_app (s : string) :
  s = fst (span_not_quote s) +:+ snd (span_not_quote s).
Proof.
  induction s as [|c s IH]; simpl; [done|].
  destruct (Ascii.eqb c quote); [done|].
  destruct (span_not_quote s) as [body rest]. cbn in *.
  rewrite append_cons. by f_equal.
Qed.

Lemma length_app_string (p r : string) :
  String.length (p +:+ r) = String.length p + String.length r.
Proof.
  induction p as [|a p IH]; [done|]. rewrite append_cons. simpl. by rewrite IH.
Qed.

Lemma match_eq_quoted_app (s after : string) :
  match_eq_quoted s = Some after -> exists pre, s = pre +:+ after.
Proof.
  unfold match_eq_quoted. intros H.
  destruct (strip_prefix _ s) as [r|] eqn:Hp; [|done].
  apply strip_prefix_app in Hp as ->.
  pose proof (span_not_quote_app r) as Hr.
  destruct (span_not_quote r) as [[|c body] [|q rest]]; try done.
  injection H as ->. simpl in Hr. rewrite Hr.
  exists (String "=" (String quote (String c body +:+ String q EmptyString))).
  rewrite !append_cons, append_nil. do 3 f_equal.
  clear. induction body as [|a body IH]; [done|].
  by rewrite !append_cons, IH.
Qed.

(** A match at the head of a text consumes a prefix of it, which is not
    empty. *)
Lemma namespace_decl_match_app (s after : string) :
  namespace_decl_match s = Some after ->
  exists a pre, s = String a (pre +:+ after).
Proof.
  unfold namespace_decl_match, match_xmlns. intros H.
  assert (Hlit : forall t,
            (strip_prefix "ns2:" t = Some after \/
             strip_prefix "xml:" t = Some after) ->
            exists a pre, t = String a (pre +:+ after)).
  { intros t [Ht|Ht]; apply strip_prefix_app in Ht as ->.
    - by exists "n"%char, "s2:".
    - by exists "x"%char, "ml:". }
  assert (Hdecl : forall r, strip_prefix " xmlns" s = Some r ->
                            match_eq_quoted r = Some after ->
                            exists a pre, s = String a (pre +:+ after)).
  { intros r Hs Hq. apply strip_prefix_app in Hs as ->.
    apply match_eq_quoted_app in Hq as [pre ->].
    by exists " "%char, ("xmlns" +:+ pre). }
  assert (Hrest : match strip_prefix "ns2:" s with
                  | Some a => Some a
                  | None => strip_prefix "xml:" s
                  end = Some after ->
                  exists a pre, s = String a (pre +:+ after)).
  { intros Hm. apply Hlit.
    destruct (strip_prefix "ns2:" s); [left | right]; done. }
  destruct (strip_prefix " xmlns" s) as [r|] eqn:Hx; [|by apply Hrest].
  destruct (strip_prefix ":ns2" r) as [r2|] eqn:Hn.
  - destruct (match_eq_quoted r2) as [a|] eqn:Hq.
    + injection H as ->. apply strip_prefix_app in Hx as ->.
      apply strip_prefix_app in Hn as ->.
      apply match_eq_quoted_app in Hq as [pre ->].
      by exists " "%char, ("xmlns:ns2" +:+ pre).
    + destruct (match_eq_quoted r) as [a|] eqn:Hq'; [|by apply Hrest].
      injection H as ->. by apply (Hdecl r).
  - destruct (match_eq_quoted r) as [a|] eqn:Hq'; [|by apply Hrest].
    injection H as ->. by apply (Hdecl r).
Qed.

Lemma sub_empty_skip (p rest : string) :
  sub_empty (String.length p) (p +:+ rest) = sub_empty 0 rest.
Proof. induction p as [|a p IH]; [done|]. exact IH. Qed.

Lemma sub_empty_head (c : ascii) (r : string) :
  sub_empty 0 (String c r)
  = match namespace_decl_match (String c r) with
    | Some after =>
        sub_empty (String.length (String c r) - String.length after - 1) r
    | None => String c (sub_empty 0 r)
    end.
Proof. done. Qed.

(** A match at the head is dropped and the scan resumes behind it. *)
Lemma sub_empty_match (s after : string) :
  namespace_decl_match s = Some after -> sub_empty 0 s = sub_empty 0 after.
Proof.
  intros H. destruct (namespace_decl_match_app s after H) as (a & pre & ->).
  rewrite sub_empty_head, H. simpl. rewrite length_app_string.
  replace (S (String.length pre + String.length after)
           - String.length after - 1)
    with (String.length pre) by lia.
  apply sub_empty_skip.
Qed.

Lemma sub_empty_sublist (skip : nat) (s : string) :
  sublist (list_ascii_of_string (sub_empty skip s)) (list_ascii_of_string s).
Proof.
  revert skip. induction s as [|c r IH]; intros skip; [done|].
  destruct skip as [|k].
  - rewrite sub_empty_head.
    destruct (namespace_decl_match (String c r)); simpl.
    + apply sublist_cons, IH.
    + apply sublist_skip, IH.
  - simpl. apply sublist_cons, IH.
Qed.

Lemma length_list_ascii (s : string) :
  length (list_ascii_of_string s) = String.length s.
Proof. induction s as [|c r IH]; simpl; [done|]. by rewrite IH. Qed.

(** X5: the stripper only deletes: its result is the text with some
    characters left out, in the same order, so it is never longer. *)
Theorem remove_xml_namespace_only_deletes (xml : string) :
  sublist (list_ascii_of_string (remove_xml_namespace xml))
    (list_ascii_of_string xml) /\
  String.length (remove_xml_namespace xml) <= String.length xml.
Proof.
  pose proof (sub_empty_sublist 0 xml) as H. split; [exact H|].
  apply sublist_length in H. by rewrite !length_list_ascii in H.
Qed.

Lemma occurs_cons (p : string) (c : ascii) (r : string) :
  occurs p (String c r) = false ->
  strip_prefix p (String c r) = None /\ occurs p r = false.
Proof.
  change (occurs p (String c r))
    with (match strip_prefix p (String c r) with
          | Some _ => true
          | None => occurs p r
          end).
  by destruct (strip_prefix p (String c r)).
Qed.

(** X6: a text in which none of [ xmlns], [ns2:] and [xml:] occurs is
    returned unchanged. *)
Theorem remove_xml_namespace_unchanged (xml : string) :
  occurs " xmlns" xml = false ->
  occurs "ns2:" xml = false ->
  occurs "xml:" xml = false ->
  remove_xml_namespace xml = xml.
Proof.
  unfold remove_xml_namespace.
  induction xml as [|c r IH]; intros Hx Hn Hm; [done|].
  apply occurs_cons in Hx as [Hx Hx'].
  apply occurs_cons in Hn as [Hn Hn'].
  apply occurs_cons in Hm as [Hm Hm'].
  rewrite sub_empty_head. unfold namespace_decl_match, match_xmlns.
  rewrite Hx, Hn, Hm. by rewrite IH.
Qed.

Lemma remove_xml_namespace_unchanged_witness :
  remove_xml_namespace doc_plain = doc_plain.
Proof.
  apply remove_xml_namespace_unchanged; reflexivity.
Defined.

Lemma span_not_quote_value (uri rest : string) :
  has_char quote uri = false ->
  span_not_quote (uri +:+ String quote rest) = (uri, String quote rest).
Proof.
  induction uri as [|c uri IH]; intros H; [done|].
  simpl in H. apply orb_false_iff in H as [Hc Hu].
  rewrite append_cons. simpl. rewrite Hc. by rewrite IH.
Qed.

Lemma match_eq_quoted_value (uri rest : string) :
  uri <> EmptyString ->
  has_char quote uri = false ->
  match_eq_quoted (String "=" (String quote (uri +:+ String quote rest)))
  = Some rest.
Proof.
  intros Hne Hq. unfold match_eq_quoted. simpl.
  rewrite span_not_quote_value by done. by destruct uri.
Qed.

(** X7: each alternative of the pattern is dropped whole at the head of a
    text, and the scan goes on behind it: a declaration [ xmlns=QuriQ] or
    [ xmlns:ns2=QuriQ] (Q the double quote) whose [uri] is not empty and
    holds no double quote, and the prefixes [ns2:] and [xml:]. *)
Theorem namespace_tokens_dropped (uri rest : string) :
  uri <> EmptyString ->
  has_char quote uri = false ->
  remove_xml_namespace (" xmlns=" +:+ String quote uri +:+ String quote rest)
  = remove_xml_namespace rest /\
  remove_xml_namespace (" xmlns:ns2=" +:+ String quote uri +:+ String quote rest)
  = remove_xml_namespace rest /\
  remove_xml_namespace ("ns2:" +:+ rest) = remove_xml_namespace rest /\
  remove_xml_namespace ("xml:" +:+ rest) = remove_xml_namespace rest.
Proof.
  intros Hne Hq. pose proof (match_eq_quoted_value uri rest Hne Hq) as Hm.
  unfold remove_xml_namespace. repeat split.
  - apply sub_empty_match. unfold namespace_decl_match.
    change (match_xmlns (" xmlns=" +:+ String quote uri +:+ String quote rest))
      with (match_eq_quoted
              (String "=" (String quote (uri +:+ String quote rest)))).
    by rewrite Hm.
  - apply sub_empty_match. unfold namespace_decl_match.
    change (match_xmlns
              (" xmlns:ns2=" +:+ String quote uri +:+ String quote rest))
      with (match match_eq_quoted
                    (String "=" (String quote (uri +:+ String quote rest)))
            with
            | Some after => Some after
            | None =>
                match_eq_quoted
                  (":ns2=" +:+ String quote uri +:+ String quote rest)
            end).
    by rewrite Hm.
  - by apply sub_empty_match.
  - by apply sub_empty_match.
Qed.

Lemma namespace_tokens_dropped_witness :
  remove_xml_namespace (" xmlns=" +:+ String quote "urn:x" +:+ String quote "><b/>")
  = "><b/>".
Proof.
  destruct (namespace_tokens_dropped "urn:x" "><b/>") as [H _];
    [discriminate | reflexivity |].
  rewrite H. reflexivity.
Defined.

(** X8: a declaration with an empty value, [ xmlns=QQ], is no match of the
    pattern and stays in the text. *)
Theorem empty_declaration_kept (rest : string) :
  remove_xml_namespace (" xmlns=" +:+ String quote (String quote rest))
  = " xmlns=" +:+ String quote (String quote (remove_xml_namespace rest)).
Proof. done. Qed.

(** ** XML2Dict._namespace_split *)

Lemma has_char_app (c : ascii) (a b : string) :
  has_char c (a +:+ b) = has_char c a || has_char c b.
Proof.
  induction a as [|x a IH]; [done|].
  rewrite append_cons. simpl. by rewrite IH, orb_assoc.
Qed.

Lemma dot_star_app (s : string) :
  has_char line_feed (XML2Dict.dot_star s) = false /\
  exists after, s = XML2Dict.dot_star s +:+ after /\
                (after = EmptyString \/ exists t, after = String line_feed t).
Proof.
  induction s as [|c s (IHl & after & IHs & IHa)]; simpl.
  - split; [done|]. exists EmptyString. by split; [|left].
  - destruct (Ascii.eqb_spec c line_feed) as [->|Hc].
    + split; [done|]. exists (String line_feed s). split; [done|]. right. eauto.
    + split.
      * simpl. rewrite IHl. by apply Ascii.eqb_neq in Hc as ->.
      * exists after. split; [|done]. rewrite append_cons. by f_equal.
Qed.

Lemma dot_star_id (s : string) :
  has_char line_feed s = false -> XML2Dict.dot_star s = s.
Proof.
  induction s as [|c s IH]; simpl; [done|].
  intros H. apply orb_false_iff in H as [-> Hs]. by rewrite IH.
Qed.

Lemma split_last_brace_none (line : string) :
  has_char "}" line = false -> XML2Dict.split_last_brace line = None.
Proof.
  induction line as [|c line IH]; simpl; [done|].
  intros H. apply orb_false_iff in H as [-> Hs]. by rewrite IH.
Qed.

Lemma split_last_brace_app (line g1 g2 : string) :
  XML2Dict.split_last_brace line = Some (g1, g2) ->
  line = g1 +:+ String "}" g2 /\ has_char "}" g2 = false.
Proof.
  revert g1. induction line as [|c line IH]; intros g1 H; simpl in H; [done|].
  destruct (XML2Dict.split_last_brace line) as [[h1 h2]|] eqn:E.
  - injection H as <- <-. destruct (IH h1 eq_refl) as [-> Hh].
    by rewrite append_cons.
  - destruct (Ascii.eqb_spec c "}") as [->|]; [|done].
    injection H as <- <-. split; [done|].
    clear IH. induction line as [|a line IH]; [done|]. simpl in *.
    destruct (XML2Dict.split_last_brace line) as [[? ?]|]; [done|].
    destruct (Ascii.eqb a "}"); [done|]. by apply IH.
Qed.

Lemma split_last_brace_value (uri name : string) :
  has_char "}" name = false ->
  XML2Dict.split_last_brace (uri +:+ String "}" name) = Some (uri, name).
Proof.
  intros H. induction uri as [|c uri IH].
  - rewrite append_nil. simpl. by rewrite split_last_brace_none.
  - rewrite append_cons. simpl. by rewrite IH.
Qed.

(** X9: a tag in the notation of ElementTree, the namespace in braces
    before the name, is split into the name and the namespace, which is
    written to the key [namespace] of the value.  (The name holds no
    closing brace, and neither part a line feed.) *)
Theorem namespace_split_qualified (uri name : string) (value : dict) :
  has_char line_feed uri = false ->
  has_char line_feed name = false ->
  has_char "}" name = false ->
  XML2Dict._namespace_split (String "{" (uri +:+ String "}" name)) value
  = (name, dict_setitem value "namespace" (VStr uri)) /\
  local_name (String "{" (uri +:+ String "}" name)) = name.
Proof.
  intros Hu Hn Hb.
  assert (Hs : XML2Dict.namespace_search (String "{" (uri +:+ String "}" name))
               = Some (uri, name)).
  { simpl. rewrite dot_star_id.
    - by rewrite split_last_brace_value.
    - rewrite has_char_app. simpl. by rewrite Hu, Hn. }
  unfold XML2Dict._namespace_split, local_name. by rewrite Hs.
Qed.

Lemma namespace_split_qualified_witness :
  XML2Dict._namespace_split "{http://cs.sfsu.edu/csc867/myscheduler}patients" []
  = ("patients", [("namespace", VStr "http://cs.sfsu.edu/csc867/myscheduler")]).
Proof.
  apply (proj1 (namespace_split_qualified
                  "http://cs.sfsu.edu/csc867/myscheduler" "patients" []
                  eq_refl eq_refl eq_refl)).
Defined.

Lemma namespace_search_none (tag : string) :
  has_char "{" tag = false \/ has_char "}" tag = false ->
  XML2Dict.namespace_search tag = None.
Proof.
  induction tag as [|c tag IH]; simpl; [done|]. intros [H|H].
  - apply orb_false_iff in H as [-> Ht]. apply IH. by left.
  - apply orb_false_iff in H as [Hc Ht]. rewrite IH by (by right).
    destruct (Ascii.eqb c "{"); [|done].
    rewrite split_last_brace_none; [done|].
    destruct (dot_star_app tag) as (_ & after & Htag & _).
    rewrite Htag, has_char_app in Ht. by apply orb_false_iff in Ht as [-> _].
Qed.

(** X10: a tag without an opening brace, or without a closing brace, is
    returned as it is, and the value is not touched. *)
Theorem namespace_split_plain (tag : string) (value : dict) :
  has_char "{" tag = false \/ has_char "}" tag = false ->
  XML2Dict._namespace_split tag value = (tag, value) /\ local_name tag = tag.
Proof.
  intros H. unfold XML2Dict._namespace_split, local_name.
  by rewrite namespace_search_none.
Qed.

Lemma namespace_split_plain_witness :
  XML2Dict._namespace_split "patients" [] = ("patients", []).
Proof.
  apply (proj1 (namespace_split_plain "patients" [] (or_introl eq_refl))).
Defined.

(** X11: whenever the pattern matches, the tag holds an opening brace, the
    namespace, a closing brace and the name, up to the end of the line; the
    name holds no closing brace, and neither part a line feed.  Text before
    the opening brace and text after the line is dropped from the name. *)
Theorem namespace_search_shape (tag namespace name : string) :
  XML2Dict.namespace_search tag = Some (namespace, name) ->
  has_char line_feed namespace = false /\
  has_char line_feed name = false /\
  has_char "}" name = false /\
  exists before after,
    tag = before +:+ String "{" (namespace +:+ String "}" (name +:+ after)) /\
    (after = EmptyString \/ exists t, after = String line_feed t).
Proof.
  induction tag as [|c tag IH]; simpl; [done|]. intros H.
  assert (Hlater : XML2Dict.namespace_search tag = Some (namespace, name) ->
            has_char line_feed namespace = false /\
            has_char line_feed name = false /\
            has_char "}" name = false /\
            exists before after,
              String c tag
              = before +:+ String "{" (namespace +:+ String "}" (name +:+ after)) /\
              (after = EmptyString \/ exists t, after = String line_feed t)).
  { intros Hs. destruct (IH Hs) as (H1 & H2 & H3 & before & after & -> & Ha).
    repeat split; try done. by exists (String c before), after. }
  destruct (Ascii.eqb_spec c "{") as [->|]; [|by apply Hlater].
  destruct (XML2Dict.split_last_brace (XML2Dict.dot_star tag))
    as [[g1 g2]|] eqn:E; [|by apply Hlater].
  injection H as -> ->.
  destruct (dot_star_app tag) as (Hlf & after & Htag & Hafter).
  apply split_last_brace_app in E as [Hline Hb].
  rewrite Hline, has_char_app in Hlf. apply orb_false_iff in Hlf as [Hl1 Hl2].
  simpl in Hl2. repeat split; try done.
  exists EmptyString, after. split; [|done].
  rewrite append_nil. f_equal. rewrite Htag at 1. rewrite Hline.
  clear. induction namespace as [|a ns IH]; [done|].
  by rewrite !append_cons, IH.
Qed.

Lemma namespace_search_shape_witness :
  XML2Dict.namespace_search "x{a}b}c{d}e" = Some ("a}b}c{d", "e") /\
  has_char "}" "e" = false.
Proof.
  split; [reflexivity|].
  destruct (namespace_search_shape "x{a}b}c{d}e" "a}b}c{d" "e" eq_refl)
    as (_ & _ & Hname & _).
  exact Hname.
Defined.

(** ** XML2Dict._parse_node *)

Lemma strip_truthy (s : string) : truthy s && truthy (strip s) = has_nonspace s.
Proof.
  assert (Hr : forall t, truthy (rstrip t) = has_nonspace t).
  { induction t as [|c t IH]; [done|]. cbn [rstrip has_nonspace].
    rewrite <- IH. destruct (rstrip t); cbn [truthy].
    - rewrite orb_false_r. by destruct (isspace c).
    - by rewrite orb_true_r. }
  assert (Hl : forall t, has_nonspace (lstrip t) = has_nonspace t).
  { induction t as [|c t IH]; [done|]. cbn [lstrip has_nonspace].
    destruct (isspace c) eqn:E; [done|]. cbn [has_nonspace]. by rewrite E. }
  unfold strip. rewrite Hr, Hl. by destruct s.
Qed.

Lemma stored_after_some (st tree : value) :
  is_Some (stored_after (Some st) tree).
Proof.
  unfold stored_after.
  destruct (_value_or_node_total st) as (old & Hold & _). rewrite Hold.
  destruct old as [| | | l | |]; try done. simpl.
  by destruct (append_at_read_ok st tree l Hold) as (st' & -> & _).
Qed.

Lemma stored_after_fold_some (trees : list value) (st0 : option value) :
  is_Some (fold_left stored_after trees st0) <-> is_Some st0 \/ trees <> [].
Proof.
  revert st0. induction trees as [|t trees IH]; intros st0; simpl.
  - split; [by left | by intros [?|?]].
  - rewrite IH. split; [by right|]. intros _. left.
    destruct st0 as [st|]; [apply stored_after_some | done].
Qed.

Lemma contains_setitem (d : dict) (key k : string) (v : value) :
  dict_contains k (dict_setitem d key v) = dict_contains k d || String.eqb key k.
Proof.
  rewrite !dict_contains_getitem.
  destruct (String.eqb_spec key k) as [->|Hne].
  - rewrite getitem_setitem_eq, orb_true_r. by apply bool_decide_eq_true.
  - by rewrite getitem_setitem_ne, orb_false_r.
Qed.

Lemma contains_attrib_loop (attrs : list (string * string)) (d : dict) (k : string) :
  dict_contains k (fold_left XML2Dict.store_attrib attrs d) = true <->
  dict_contains k d = true \/
  exists kv, kv ∈ attrs /\ local_name (fst kv) = k.
Proof.
  revert d. induction attrs as [|[key val] attrs IH]; intros d; cbn [fold_left].
  - split; [by left|]. intros [?|(kv & Hin & _)]; [done|]. by apply elem_of_nil in Hin.
  - rewrite IH, store_attrib_eq, contains_setitem, orb_true_iff. split.
    + intros [[?|Hk]|(kv & Hin & Hkv)].
      * by left.
      * right. exists (key, val). split; [left|]. by apply String.eqb_eq.
      * right. exists kv. split; [by right | done].
    + intros [?|(kv & Hin & Hkv)]; [by left; left|].
      apply elem_of_cons in Hin as [->|Hin].
      * left. right. by apply String.eqb_eq.
      * right. by exists kv.
Qed.


(** X13: the keys of the node tree of an element are [value], when its
    text holds a character that is no white space, the local names of its
    attributes, and the local names of the tags of its children; there is
    no other key. *)
Theorem parse_node_keys (node : Element) (k : string) :
  exists node_tree,
    XML2Dict._parse_node node = Ok node_tree /\
    (dict_contains k node_tree = true <->
     (k = "value" /\ exists t, text node = Some t /\ has_nonspace t = true) \/
     (exists kv, kv ∈ attrib node /\ local_name (fst kv) = k) \/
     (exists c, c ∈ children node /\ local_name (tag c) = k)).
Proof.
  destruct (_parse_node_entry node k) as (nt & Hnt & Hget).
  exists nt. split; [done|].
  rewrite dict_contains_true, Hget, stored_after_fold_some.
  rewrite <- dict_contains_true. unfold before_children.
  rewrite contains_attrib_loop.
  assert (Htext :
    dict_contains k
      match text node with
      | Some t =>
          if truthy t && truthy (strip t)
          then DotDict.__setattr__ [] "value" (VStr t) else []
      | None => []
      end = true <->
    k = "value" /\ exists t, text node = Some t /\ has_nonspace t = true).
  { destruct (text node) as [t|]; [|split; [done | by intros (_ & ? & ? & _)]].
    rewrite strip_truthy. destruct (has_nonspace t) eqn:Ht;
      unfold DotDict.__setattr__, DotDict.__setitem__;
      cbn [dict_contains dict_setitem].
    - destruct (String.eqb_spec "value" k) as [<-|Hne].
      + split; [eauto|done].
      + split; [done | by intros [-> _]].
    - split; [done|]. intros (_ & t' & [= <-] & Ht'). congruence. }
  assert (Hchildren :
    map child_tree (filter (fun c => local_name (tag c) = k) (children node)) <> []
    <-> exists c, c ∈ children node /\ local_name (tag c) = k).
  { split.
    - intros Hne.
      destruct (filter (fun c => local_name (tag c) = k) (children node))
        as [|c cs] eqn:E; [done|].
      assert (Hc : c ∈ filter (fun c => local_name (tag c) = k) (children node))
        by (rewrite E; left).
      apply list_elem_of_filter in Hc as [? ?]. by exists c.
    - intros (c & Hin & Hc) Hnil. apply fmap_nil_inv in Hnil.
      assert (Hf : c ∈ filter (fun c => local_name (tag c) = k) (children node))
        by (by apply list_elem_of_filter).
      rewrite Hnil in Hf. by apply elem_of_nil in Hf. }
  rewrite Htext, Hchildren. tauto.
Qed.

Lemma parse_leaf_text (tag_ t : string) :
  XML2Dict._parse_node (mkElement tag_ (Some t) [] [])
  = Ok (if has_nonspace t then [("value", VStr t)] else []).
Proof.
  rewrite _parse_node_eq. unfold before_children.
  cbn [text attrib children fold_left XML2Dict.children_loop].
  rewrite strip_truthy. by destruct (has_nonspace t).
Qed.

(** X14: an element without attributes and children gives the node that
    holds its text, unstripped, under [value] when the text holds a
    character that is no white space, and the empty node otherwise (no
    text, empty text, white space only). *)
Theorem parse_leaf (tag_ : string) (text_ : option string) :
  XML2Dict._parse_node (mkElement tag_ text_ [] [])
  = Ok match text_ with
       | Some t => if has_nonspace t then [("value", VStr t)] else []
       | None => []
       end.
Proof.
  destruct text_ as [t|]; [apply parse_leaf_text | done].
Qed.

(** X15: a tag that occurs once among the children, and is not the key of
    the text or of an attribute, has the node of that child as its entry;
    key access reads this node with the single-value collapse. *)
Theorem single_child_stored_directly (node c : Element) (t : string) :
  dict_getitem (before_children node) t = None ->
  filter (fun c' => local_name (tag c') = t) (children node) = [c] ->
  exists node_tree,
    XML2Dict._parse_node node = Ok node_tree /\
    dict_getitem node_tree t = Some (child_tree c) /\
    DotDict.__getitem__ node_tree t = DotDict._value_or_node (child_tree c).
Proof.
  intros Hfresh Hocc.
  destruct (_parse_node_entry node t) as (nt & Hnt & Hget).
  rewrite Hocc, Hfresh in Hget. simpl in Hget.
  exists nt. unfold DotDict.__getitem__. by rewrite Hget.
Qed.

Lemma single_child_stored_directly_witness :
  let c := mkElement "b" None [("id", "1")] [] in
  exists node_tree,
    XML2Dict._parse_node (mkElement "a" (Some "text") [("k", "v")] [c])
    = Ok node_tree /\
    dict_getitem node_tree "b" = Some (VDotDict [("id", VDotDict [("value", VStr "1")])]).
Proof.
  intros c.
  destruct (single_child_stored_directly
              (mkElement "a" (Some "text") [("k", "v")] [c]) c "b")
    as (nt & Hnt & Hget & _); [reflexivity | reflexivity |].
  by exists nt.
Defined.

(** X16: the text of a child element comes back unchanged.  When a child
    without namespace, attributes and children is the only child of its
    tag, the tag is not the key of the text or of an attribute of the
    parent, and the text of the child holds a character that is no white
    space, then key access to the tag on the parent's node tree returns
    that text, white space around it included. *)
Theorem text_child_round_trip (node c : Element) (s : string) :
  XML2Dict.namespace_search (tag c) = None ->
  attrib c = [] ->
  children c = [] ->
  text c = Some s ->
  has_nonspace s = true ->
  dict_getitem (before_children node) (tag c) = None ->
  filter (fun c' => local_name (tag c') = tag c) (children node) = [c] ->
  exists node_tree,
    XML2Dict._parse_node node = Ok node_tree /\
    DotDict.__getitem__ node_tree (tag c) = Ok (VStr s).
Proof.
  intros Hns Hattrib Hchildren Htext Hs Hfresh Hocc.
  destruct (_parse_node_entry node (tag c)) as (nt & Hnt & Hget).
  rewrite Hocc, Hfresh in Hget. simpl in Hget.
  exists nt. split; [done|]. unfold DotDict.__getitem__. rewrite Hget.
  unfold child_tree, XML2Dict._namespace_split. rewrite Hns.
  destruct c as [tg tx at_ ch]. cbn [tag text attrib children] in *. subst.
  rewrite parse_leaf_text. by rewrite Hs.
Qed.

Lemma text_child_round_trip_witness :
  exists node_tree,
    XML2Dict._parse_node
      (mkElement "a" None [] [mkElement "b" (Some " 1 ") [] []]) = Ok node_tree /\
    DotDict.__getitem__ node_tree "b" = Ok (VStr " 1 ").
Proof.
  apply (text_child_round_trip
           (mkElement "a" None [] [mkElement "b" (Some " 1 ") [] []])
           (mkElement "b" (Some " 1 ") [] []) " 1 ");
    reflexivity.
Defined.

Lemma append_at_read_kind (v x v' : value) :
  XML2Dict.append_at_read v x = Ok v' -> isinstance_list v' = isinstance_list v.
Proof.
  destruct v as [| | | l | d | d]; simpl; try done.
  - by intros [= <-].
  - destruct (dict_contains "value" d && Nat.eqb (length d) 1).
    + match goal with |- context [bind ?r _] => destruct r end; simpl; [|done].
      by intros [= <-].
    + by destruct (DotDict.__getattr__ d "append").
Qed.

Lemma stored_after_read_list (trees : list value) (st : value) (l : list value) :
  DotDict._value_or_node st = Ok (VList l) ->
  exists st',
    fold_left stored_after trees (Some st) = Some st' /\
    DotDict._value_or_node st' = Ok (VList (l ++ trees)) /\
    isinstance_list st' = isinstance_list st.
Proof.
  revert st l. induction trees as [|t trees IH]; intros st l Hread.
  - exists st. by rewrite app_nil_r.
  - destruct (append_at_read_ok st t l Hread) as (st1 & Happ & Hread1).
    cbn [fold_left]. unfold stored_after at 2. rewrite Hread. simpl.
    rewrite Happ. destruct (IH st1 (l ++ [t]) Hread1) as (st' & Hfold & Hr & Hk).
    exists st'. split; [done|]. rewrite <- app_assoc in Hr. split; [done|].
    rewrite Hk. by apply append_at_read_kind in Happ.
Qed.

Lemma attrib_loop_entry (attrs : list (string * string)) (d : dict)
    (k : string) (pre : value) :
  dict_getitem (fold_left XML2Dict.store_attrib attrs d) k = Some pre ->
  dict_getitem d k = Some pre \/
  exists key val, (key, val) ∈ attrs /\ pre = attrib_node key val.
Proof.
  revert d. induction attrs as [|[key val] attrs IH]; intros d; cbn [fold_left].
  - by left.
  - intros H. apply IH in H as [H|(key' & val' & Hin & ->)].
    + rewrite store_attrib_eq in H.
      destruct (String.eqb_spec (local_name key) k) as [<-|Hne].
      * rewrite getitem_setitem_eq in H. injection H as <-.
        right. exists key, val. split; [left | done].
      * rewrite getitem_setitem_ne in H by done. by left.
    + right. exists key', val'. split; [by right | done].
Qed.

(** What the text and the attributes store never reads back as a list. *)
Lemma before_children_read (node : Element) (t : string) (pre : value) :
  dict_getitem (before_children node) t = Some pre ->
  exists old, DotDict._value_or_node pre = Ok old /\ isinstance_list old = false.
Proof.
  unfold before_children. intros H.
  apply attrib_loop_entry in H as [H|(key & val & _ & ->)].
  - destruct (text node) as [s|]; [|done].
    destruct (truthy s && truthy (strip s)); [|done].
    unfold DotDict.__setattr__, DotDict.__setitem__ in H.
    cbn [dict_setitem dict_getitem] in H.
    destruct (String.eqb "value" t); [|done]. injection H as <-. by eexists.
  - unfold attrib_node.
    destruct (XML2Dict.namespace_search key) as [[ns nm]|]; by eexists.
Qed.

(** X17: when a tag occurs two or more times among the children, is not
    the key of the text or of an attribute, and the node of the first of
    these children does not read back as a list, the entry of the tag is a
    list with one element per occurrence in document order: first the
    first child as key access reads it (its text, when it is a
    single-value node), then the nodes of the later children. *)
Theorem repeated_tag_first_as_read
    (node : Element) (t : string) (c1 c2 : Element) (rest : list Element)
    (old : value) :
  dict_getitem (before_children node) t = None ->
  filter (fun c => local_name (tag c) = t) (children node) = c1 :: c2 :: rest ->
  DotDict._value_or_node (child_tree c1) = Ok old ->
  isinstance_list old = false ->
  exists node_tree,
    XML2Dict._parse_node node = Ok node_tree /\
    DotDict.__getitem__ node_tree t
    = Ok (VList (old :: map child_tree (c2 :: rest))) /\
    length (old :: map child_tree (c2 :: rest))
    = length (filter (fun c => local_name (tag c) = t) (children node)).
Proof.
  intros Hfresh Hocc Hold Hl.
  destruct (repeated_tag_sequence node t c1 c2 rest old Hfresh Hocc Hold Hl)
    as (nt & Hnt & Hget).
  exists nt. split; [done|]. unfold DotDict.__getitem__. rewrite Hget, Hocc.
  split; [done|]. simpl. by rewrite length_map.
Qed.

Lemma repeated_tag_first_as_read_witness :
  let b1 := mkElement "b" (Some "1") [] [] in
  let b2 := mkElement "b" (Some "2") [] [] in
  exists node_tree,
    XML2Dict._parse_node (mkElement "a" None [] [b1; b2]) = Ok node_tree /\
    DotDict.__getitem__ node_tree "b"
    = Ok (VList [VStr "1"; VDotDict [("value", VStr "2")]]).
Proof.
  intros b1 b2.
  destruct (repeated_tag_first_as_read (mkElement "a" None [] [b1; b2])
              "b" b1 b2 [] (VStr "1"))
    as (nt & Hnt & Hget & _); try reflexivity.
  by exists nt.
Defined.

(** X18: when the node of the first child of a tag reads back as a list
    (it is a single-value node over a list), the later children of the tag
    are appended to that list: the entry of the tag stays a node, and key
    access reads it as the elements of that list followed by the nodes of
    the later children. *)
Theorem repeated_tag_into_first_child
    (node : Element) (t : string) (c1 c2 : Element) (rest : list Element)
    (l : list value) :
  dict_getitem (before_children node) t = None ->
  filter (fun c => local_name (tag c) = t) (children node) = c1 :: c2 :: rest ->
  DotDict._value_or_node (child_tree c1) = Ok (VList l) ->
  exists node_tree stored,
    XML2Dict._parse_node node = Ok node_tree /\
    dict_getitem node_tree t = Some stored /\
    isinstance_list stored = false /\
    DotDict.__getitem__ node_tree t
    = Ok (VList (l ++ map child_tree (c2 :: rest))).
Proof.
  intros Hfresh Hocc Hread.
  destruct (_parse_node_entry node t) as (nt & Hnt & Hget).
  rewrite Hocc, Hfresh in Hget. cbn [map fold_left] in Hget.
  change (stored_after None (child_tree c1)) with (Some (child_tree c1)) in Hget.
  destruct (stored_after_read_list (child_tree c2 :: map child_tree rest)
              (child_tree c1) l Hread) as (st & Hfold & Hr & Hk).
  cbn [fold_left] in Hfold. rewrite Hfold in Hget.
  exists nt, st. split; [done|]. split; [done|]. split.
  - rewrite Hk. by destruct (child_tree_is_node c1) as [tree ->].
  - unfold DotDict.__getitem__. by rewrite Hget.
Qed.

Lemma repeated_tag_into_first_child_witness :
  let value_ := mkElement "value" None [] [] in
  let b1 := mkElement "b" None [] [value_; value_] in
  let b2 := mkElement "b" (Some "2") [] [] in
  exists node_tree,
    XML2Dict._parse_node (mkElement "a" None [] [b1; b2]) = Ok node_tree /\
    DotDict.__getitem__ node_tree "b"
    = Ok (VList [VDotDict []; VDotDict []; VDotDict [("value", VStr "2")]]).
Proof.
  intros value_ b1 b2.
  destruct (repeated_tag_into_first_child (mkElement "a" None [] [b1; b2])
              "b" b1 b2 [] [VDotDict []; VDotDict []])
    as (nt & st & Hnt & _ & _ & Hget); try reflexivity.
  by exists nt.
Defined.

(** X19: when a tag of children is already the key of the element's text
    ([value]) or of an attribute, the children do not replace that entry:
    it becomes a list headed by the earlier value as key access reads it
    (for an attribute without namespace, its text), followed by the nodes
    of all children of the tag in document order. *)
Theorem children_join_earlier_key
    (node : Element) (t : string) (pre : value) (c1 : Element)
    (rest : list Element) :
  dict_getitem (before_children node) t = Some pre ->
  filter (fun c => local_name (tag c) = t) (children node) = c1 :: rest ->
  exists node_tree old,
    XML2Dict._parse_node node = Ok node_tree /\
    DotDict._value_or_node pre = Ok old /\
    isinstance_list old = false /\
    dict_getitem node_tree t = Some (VList (old :: map child_tree (c1 :: rest))).
Proof.
  intros Hpre Hocc.
  destruct (before_children_read node t pre Hpre) as (old & Hold & Hl).
  destruct (_parse_node_entry node t) as (nt & Hnt & Hget).
  exists nt, old. split; [done|]. split; [done|]. split; [done|].
  rewrite Hget, Hocc, Hpre. cbn [map fold_left].
  unfold stored_after at 2. rewrite Hold, Hl.
  by rewrite stored_after_lists.
Qed.

Lemma children_join_earlier_key_witness :
  let b := mkElement "b" None [] [] in
  exists node_tree,
    XML2Dict._parse_node (mkElement "a" None [("b", "x")] [b; b]) = Ok node_tree /\
    dict_getitem node_tree "b" = Some (VList [VStr "x"; VDotDict []; VDotDict []]).
Proof.
  intros b.
  destruct (children_join_earlier_key (mkElement "a" None [("b", "x")] [b; b])
              "b" (VDotDict [("value", VStr "x")]) b [b])
    as (nt & old & Hnt & Hold & _ & Hget); try reflexivity.
  injection Hold as <-. by exists nt.
Defined.


(** ** XML2Dict.fromstring and DictWrapper *)

Lemma fromstring_shape (ET_fromstring : string -> option Element) (str_ : string) :
  XML2Dict.fromstring ET_fromstring str_
  = match ET_fromstring str_ with
    | None => Err ParseError
    | Some root => Ok [(local_name (tag root), child_tree root)]
    end.
Proof.
  unfold XML2Dict.fromstring, child_tree.
  destruct (ET_fromstring str_) as [root|]; [|done].
  destruct (_parse_node_total root) as [tree ->]. simpl.
  pose proof (_namespace_split_fst (tag root) tree) as Hfst.
  destruct (XML2Dict._namespace_split (tag root) tree) as [tg tr].
  simpl in *. by subst tg.
Qed.

(** X20: [fromstring] raises nothing but the error of the XML parser;
    when the parser returns a root element, the result has one key, the
    local name of the root tag, and under it the node tree of the root
    (with the key [namespace] when the tag is written with one). *)
Theorem fromstring_outcome (ET_fromstring : string -> option Element) (str_ : string) :
  match ET_fromstring str_ with
  | None => XML2Dict.fromstring ET_fromstring str_ = Err ParseError
  | Some root =>
      XML2Dict.fromstring ET_fromstring str_
      = Ok [(local_name (tag root), child_tree root)] /\
      exists tree, child_tree root = VDotDict tree
  end.
Proof.
  rewrite fromstring_shape.
  destruct (ET_fromstring str_) as [root|]; [|done].
  split; [done | apply child_tree_is_node].
Qed.

Lemma DictWrapper_init_shape
    (ET_fromstring : string -> option Element) (s : string)
    (result_key : option string) :
  match ET_fromstring (remove_xml_namespace s) with
  | None => DictWrapper.__init__ ET_fromstring (VStr s) result_key = Err ParseError
  | Some root =>
      exists body,
        DotDict._value_or_node (child_tree root) = Ok body /\
        DictWrapper.__init__ ET_fromstring (VStr s) result_key
        = Ok (DictWrapper.mk VNone (VStr s) result_key
                [(local_name (tag root), child_tree root)] body)
  end.
Proof.
  unfold DictWrapper.__init__. cbn [bind].
  pose proof (fromstring_shape ET_fromstring (remove_xml_namespace s)) as Hf.
  destruct (ET_fromstring (remove_xml_namespace s)) as [root|].
  - rewrite Hf. cbn [bind dict_keys map fst].
    unfold DotDict.get, DotDict.__getitem__. cbn [dict_getitem].
    rewrite String.eqb_refl.
    destruct (_value_or_node_total (child_tree root)) as (body & Hbody & _).
    rewrite Hbody. by exists body.
  - by rewrite Hf.
Qed.

(** X21: the outcomes of constructing a [DictWrapper].  An argument that
    is neither text nor bytes raises [TypeError]; a text (given, or
    decoded) that the XML parser refuses raises its error; otherwise the
    object holds the text as [original], the one-key result of
    [fromstring], and as response body the node of the root as key access
    reads it, single-value collapse included. *)
Theorem DictWrapper_construction
    (ET_fromstring : string -> option Element) (xml : value)
    (result_key : option string) :
  match source_text xml with
  | None =>
      DictWrapper.__init__ ET_fromstring xml result_key
      = Err (TypeError "expected string or bytes-like object")
  | Some s =>
      match ET_fromstring (remove_xml_namespace s) with
      | None => DictWrapper.__init__ ET_fromstring xml result_key = Err ParseError
      | Some root =>
          exists body,
            DotDict._value_or_node (child_tree root) = Ok body /\
            DictWrapper.__init__ ET_fromstring xml result_key
            = Ok (DictWrapper.mk VNone (VStr s) result_key
                    [(local_name (tag root), child_tree root)] body)
      end
  end.
Proof.
  pose proof (fun s => DictWrapper_init_shape ET_fromstring s result_key) as Hstr.
  destruct xml as [| s | b | l | d | d]; try done.
  - apply Hstr.
  - cbn [source_text]. rewrite DictWrapper_init_bytes.
    specialize (Hstr (string_of_list_byte b)).
    destruct (ET_fromstring (remove_xml_namespace (string_of_list_byte b)));
      [|done].
    destruct Hstr as (body & Hbody & Hinit). exists body. by rewrite Hinit.
Qed.

Lemma get_default_cases (d : dict) (key : string) (default : value) :
  exists r, DotDict.get d key default = Ok r /\
    (dict_contains key d = false -> r = default) /\
    (dict_contains key d = true -> DotDict.__getitem__ d key = Ok r).
Proof.
  unfold DotDict.get, DotDict.__getitem__.
  destruct (dict_getitem d key) as [node|] eqn:Hget.
  - assert (Hin : dict_contains key d = true)
      by (apply dict_contains_true; by rewrite Hget).
    destruct (_value_or_node_total node) as (r & -> & _).
    exists r. rewrite Hin. by repeat split.
  - apply dict_contains_false in Hget as Hin. exists default.
    rewrite Hin. by repeat split.
Qed.

(** X22: [parsed] without a result key (none, or the empty text) is the
    response body.  With a result key and a body that is a node it never
    raises: it is what key access to the result key returns on the body
    when the key is there, and the whole body when it is not. *)
Theorem parsed_selects_result_key (w : DictWrapper.t) :
  (DictWrapper._result_key w = None \/
   DictWrapper._result_key w = Some EmptyString ->
   DictWrapper.parsed w = Ok (DictWrapper._response_dict w)) /\
  (forall key d,
     DictWrapper._result_key w = Some key ->
     key <> EmptyString ->
     DictWrapper._response_dict w = VDotDict d ->
     exists r,
       DictWrapper.parsed w = Ok r /\
       (dict_contains key d = false -> r = VDotDict d) /\
       (dict_contains key d = true -> DotDict.__getitem__ d key = Ok r)).
Proof.
  unfold DictWrapper.parsed. split.
  - by intros [-> | ->].
  - intros key d -> Hkey ->. destruct key as [|c key]; [done|].
    destruct (get_default_cases d (String c key) (VDotDict d))
      as (r & -> & H1 & H2).
    by exists r.
Qed.

Lemma parsed_selects_result_key_witness :
  DictWrapper.parsed
    (DictWrapper.mk VNone (VStr doc_plain) (Some "b")
       [("a", VDotDict [("b", VDotDict [("value", VStr "1")])])]
       (VDotDict [("b", VDotDict [("value", VStr "1")])]))
  = Ok (VStr "1").
Proof.
  destruct (proj2 (parsed_selects_result_key
              (DictWrapper.mk VNone (VStr doc_plain) (Some "b")
                 [("a", VDotDict [("b", VDotDict [("value", VStr "1")])])]
                 (VDotDict [("b", VDotDict [("value", VStr "1")])])))
              "b" [("b", VDotDict [("value", VStr "1")])] eq_refl)
    as (r & Hparsed & _ & Hpresent); [discriminate | reflexivity |].
  rewrite Hparsed. rewrite <- (Hpresent eq_refl). reflexivity.
Defined.

(** X23: a root element that has text and nothing else collapses to that
    text as the response body, so [parsed] with a result key raises
    [AttributeError]: the body is a [str], which has no [get]. *)
Theorem parsed_raises_on_text_root
    (ET_fromstring : string -> option Element) (s key txt : string)
    (root : Element) :
  ET_fromstring (remove_xml_namespace s) = Some root ->
  XML2Dict.namespace_search (tag root) = None ->
  attrib root = [] ->
  children root = [] ->
  text root = Some txt ->
  has_nonspace txt = true ->
  key <> EmptyString ->
  exists w,
    DictWrapper.__init__ ET_fromstring (VStr s) (Some key) = Ok w /\
    DictWrapper._response_dict w = VStr txt /\
    DictWrapper.parsed w = Err (AttributeError "get").
Proof.
  intros HET Hns Hattrib Hchildren Htext Htxt Hkey.
  pose proof (DictWrapper_init_shape ET_fromstring s (Some key)) as Hinit.
  rewrite HET in Hinit. destruct Hinit as (body & Hbody & Hinit).
  assert (Hleaf : child_tree root = VDotDict [("value", VStr txt)]).
  { unfold child_tree, XML2Dict._namespace_split. rewrite Hns.
    destruct root as [tg tx at_ ch]. cbn [tag text attrib children] in *.
    subst. rewrite parse_leaf_text. by rewrite Htxt. }
  rewrite Hleaf in Hbody. injection Hbody as <-.
  eexists. split; [exact Hinit|]. split; [done|].
  unfold DictWrapper.parsed. simpl. by destruct key.
Qed.

Lemma parsed_raises_on_text_root_witness :
  exists w,
    DictWrapper.__init__ ET_text_root (VStr "<a>hi</a>") (Some "b") = Ok w /\
    DictWrapper._response_dict w = VStr "hi" /\
    DictWrapper.parsed w = Err (AttributeError "get").
Proof.
  apply (parsed_raises_on_text_root ET_text_root "<a>hi</a>" "b" "hi"
           (mkElement "a" (Some "hi") [] []));
    try reflexivity.
  discriminate.
Defined.


(** ** Namespace stripping of whole documents *)

Lemma token_at_false (t : string) :
  token_at t = false -> namespace_decl_match t = None.
Proof.
  unfold token_at, namespace_decl_match, match_xmlns.
  destruct (strip_prefix " xmlns" t); [done|].
  destruct (strip_prefix "ns2:" t); [done|].
  by destruct (strip_prefix "xml:" t).
Qed.

(** A kept text passes through, and the scan goes on behind it. *)
Lemma sub_empty_keep (s next : string) :
  quiet s next = true -> sub_empty 0 (s +:+ next) = s +:+ sub_empty 0 next.
Proof.
  induction s as [|c r IH]; intros H; [done|].
  cbn [quiet] in H. apply andb_true_iff in H as [Hc Hr].
  apply negb_true_iff, token_at_false in Hc.
  rewrite append_cons in Hc. rewrite !append_cons, sub_empty_head, Hc.
  by rewrite IH.
Qed.

(** A declaration at the head is dropped. *)
Lemma sub_empty_declaration (ns2 : bool) (uri rest : string) :
  truthy uri = true ->
  has_char quote uri = false ->
  sub_empty 0 (render [Declaration ns2 uri] +:+ rest) = sub_empty 0 rest.
Proof.
  intros Hne Hq.
  assert (Hm : match_eq_quoted
                 (String "=" (String quote (uri +:+ String quote rest)))
               = Some rest).
  { apply match_eq_quoted_value; [by destruct uri | done]. }
  assert (Happ : forall u t,
            (u +:+ String quote EmptyString) +:+ t = u +:+ String quote t).
  { intros u t. induction u as [|a u IH]; [done|].
    by rewrite !append_cons, IH. }
  destruct ns2; cbn [render].
  - change ((" xmlns:ns2=" +:+ String quote uri +:+ String quote EmptyString)
            +:+ rest)
      with (" xmlns:ns2=" +:+
            String quote ((uri +:+ String quote EmptyString) +:+ rest)).
    rewrite Happ. apply sub_empty_match. unfold namespace_decl_match.
    change (match_xmlns
              (" xmlns:ns2=" +:+ String quote (uri +:+ String quote rest)))
      with (match match_eq_quoted
                    (String "=" (String quote (uri +:+ String quote rest)))
            with
            | Some after => Some after
            | None =>
                match_eq_quoted
                  (":ns2=" +:+ String quote (uri +:+ String quote rest))
            end).
    by rewrite Hm.
  - change ((" xmlns=" +:+ String quote uri +:+ String quote EmptyString)
            +:+ rest)
      with (" xmlns=" +:+
            String quote ((uri +:+ String quote EmptyString) +:+ rest)).
    rewrite Happ. apply sub_empty_match. unfold namespace_decl_match.
    change (match_xmlns (" xmlns=" +:+ String quote (uri +:+ String quote rest)))
      with (match_eq_quoted
              (String "=" (String quote (uri +:+ String quote rest)))).
    by rewrite Hm.
Qed.

Lemma sub_empty_render (ps : list piece) :
  well_formed ps = true -> sub_empty 0 (render ps) = plain ps.
Proof.
  induction ps as [|[s | ns2 uri | xml] ps IH]; intros Hwf; [done| | |];
    cbn [well_formed] in Hwf; cbn [plain].
  - apply andb_true_iff in Hwf as [Hs Hps]. cbn [render].
    rewrite sub_empty_keep by done. by rewrite IH.
  - apply andb_true_iff in Hwf as [Hu Hps].
    apply andb_true_iff in Hu as [Hne Hq]. apply negb_true_iff in Hq.
    rewrite <- IH by done.
    rewrite <- (sub_empty_declaration ns2 uri (render ps) Hne Hq).
    f_equal. destruct ns2; cbn [render].
    + change (" xmlns:ns2=" +:+ String quote uri +:+ String quote (render ps))
        with (" xmlns:ns2=" +:+ String quote (uri +:+ String quote (render ps))).
      change ((" xmlns:ns2=" +:+ String quote uri +:+ String quote EmptyString)
              +:+ render ps)
        with (" xmlns:ns2=" +:+
              String quote ((uri +:+ String quote EmptyString) +:+ render ps)).
      do 2 f_equal. clear. induction uri as [|a u IHu]; [done|].
      by rewrite !append_cons, IHu.
    + change (" xmlns=" +:+ String quote uri +:+ String quote (render ps))
        with (" xmlns=" +:+ String quote (uri +:+ String quote (render ps))).
      change ((" xmlns=" +:+ String quote uri +:+ String quote EmptyString)
              +:+ render ps)
        with (" xmlns=" +:+
              String quote ((uri +:+ String quote EmptyString) +:+ render ps)).
      do 2 f_equal. clear. induction uri as [|a u IHu]; [done|].
      by rewrite !append_cons, IHu.
  - rewrite <- IH by done. destruct xml; cbn [render]; by apply sub_empty_match.
Qed.

(** C7: namespace stripping followed by parsing is parsing the
    namespace-free document.  For every document made of texts to keep,
    declarations [ xmlns=QuriQ] and [ xmlns:ns2=QuriQ] and prefixes [ns2:]
    and [xml:], wherever they stand (closing tags included), in which the
    kept texts neither hold nor complete one of these tokens and every
    declared value is not empty and holds no double quote, the stripper
    returns exactly the kept texts; so [fromstring] of the stripped text is
    [fromstring] of the namespace-free document, with every XML parser. *)
Theorem namespace_stripping_removes_tokens (ps : list piece) :
  well_formed ps = true ->
  remove_xml_namespace (render ps) = plain ps /\
  (forall ET_fromstring,
     XML2Dict.fromstring ET_fromstring (remove_xml_namespace (render ps))
     = XML2Dict.fromstring ET_fromstring (plain ps)).
Proof.
  intros Hwf.
  assert (H : remove_xml_namespace (render ps) = plain ps)
    by (by apply sub_empty_render).
  split; [exact H|]. intros ET_fromstring. by rewrite H.
Qed.

(** The document of the claim, [<a xmlns=Qurn:xQ><ns2:b>1</ns2:b></a>],
    is stripped to [<a><b>1</b></a>] and parses to [a] over [b] over the
    text; a document with [ xmlns:ns2], [xml:] and prefixed closing tags is
    stripped to its namespace-free form as well. *)
Lemma namespace_stripping_removes_tokens_witness :
  render pieces_example = doc_namespaced /\
  remove_xml_namespace doc_namespaced = doc_plain /\
  XML2Dict.fromstring ET_examples (remove_xml_namespace doc_namespaced)
  = Ok [("a", VDotDict [("b", VDotDict [("value", VStr "1")])])] /\
  remove_xml_namespace (render pieces_qualified)
  = "<a lang=" +:+ String quote "en" +:+ String quote "><b>1</b></a>".
Proof.
  destruct (namespace_stripping_removes_tokens pieces_example eq_refl)
    as [Hstrip Hparse].
  destruct (namespace_stripping_removes_tokens pieces_qualified eq_refl)
    as [Hqualified _].
  split; [reflexivity|]. split; [exact Hstrip|]. split.
  - etrans; [exact (Hparse ET_examples) | reflexivity].
  - etrans; [exact Hqualified | reflexivity].
Defined.
